(** * terraform-provider-infradots: resource adapters and data sources

    A shallow embedding of the CRUD handlers of package [internal]
    (Organization, Workspace, Variable and VCS resources, and the
    Organization, Workspace and VCS data sources), followed by the
    properties of their status-code handling, partial-update payloads,
    import-key parsing and by-name resolution.

    A handler is a computation over the response it fills in
    ([resp.State], [resp.Diagnostics]) and over the list of HTTP requests
    it has handed to the provider's client.  What lies outside the
    repository is taken as follows:
    - terraform-plugin-framework's [types.String], [types.Bool] and
      [types.Object] are three-state values (null, unknown, known);
    - [http.NewRequest] fails exactly when its URL does not parse
      ([url_error]); the client is the provider's round tripper, a function
      from requests to responses or transport errors;
    - [json.Unmarshal] is a decoder per target type ([Unmarshal]);
      [json.Marshal] of the request structs is written out, [omitempty]
      included, and yields the JSON object rather than its bytes; it has
      no error for structs of strings and booleans;
    - [req.Plan.Get], [req.State.Get] and [resp.State.Set] on a value of
      the model's type add no diagnostic (each model has one [tfsdk] field
      for each attribute of its schema), so a resource handler takes its
      plan and state as arguments;
    - [req.Config.Get] into a struct is the framework's reflection: it
      requires the attributes of the schema and the [tfsdk] fields of the
      struct to be the same names, and otherwise appends the diagnostic
      "Value Conversion Error", whose detail is a parameter
      ([conversion_error]).

    Where the sources hold two copies of a file, the later one is embedded
    (the Workspace and VCS resources with [ImportState], the Workspace data
    source with the nested [vcs] object).  The earlier copies have the same
    status tests and scans and write [http://]; the earlier VCS resource
    tags the type and the URL of its requests [vcs_type] and [url] where
    the later one tags them [vcsType] and [endpoint]. *)

From Stdlib Require Import String List ZArith Bool Ascii Lia DecimalString.
Import ListNotations.
Open Scope string_scope.

Set Implicit Arguments.

(** ** Go library calls *)

(** A call returning [(value, err)]. *)
Inductive result (A : Type) : Type :=
| Ok (a : A)
| Err (msg : string).
Arguments Ok {A} a.
Arguments Err {A} msg.

(** [%d] of [fmt.Sprintf]. *)
Definition Itoa (z : Z) : string := NilZero.string_of_int (Z.to_int z).

(** [strings.Split(s, sep)] for a one-byte separator: the substrings between
    the separators, so one more than the separators in [s]. *)
Fixpoint strings_Split (s : string) (sep : ascii) : list string :=
  match s with
  | EmptyString => [EmptyString]
  | String c rest =>
      if Ascii.eqb c sep then EmptyString :: strings_Split rest sep
      else match strings_Split rest sep with
           | hd :: tl => String c hd :: tl
           | [] => [String c EmptyString]
           end
  end.

(** Number of occurrences of a byte. *)
Fixpoint strings_Count (s : string) (sep : ascii) : nat :=
  match s with
  | EmptyString => 0
  | String c rest => (if Ascii.eqb c sep then 1 else 0) + strings_Count rest sep
  end.

(** [strings.ToLower] on ASCII: bytes 'A'..'Z' are moved to 'a'..'z', all
    others are kept.  Go also maps the upper-case letters outside ASCII; a
    string with such a letter is outside this definition. *)
Definition lower_byte (c : ascii) : ascii :=
  let n := nat_of_ascii c in
  if andb (Nat.leb 65 n) (Nat.leb n 90) then ascii_of_nat (n + 32) else c.

Fixpoint strings_ToLower (s : string) : string :=
  match s with
  | EmptyString => EmptyString
  | String c rest => String (lower_byte c) (strings_ToLower rest)
  end.

(** A [time.Time], observed only through [Format(time.RFC3339)]. *)
Record Time : Type := mkTime { Format_RFC3339 : string }.

(** ** terraform-plugin-framework values *)

Module types.

Inductive String : Type :=
| StringNull
| StringUnknown
| StringValue (s : string).

Inductive Bool : Type :=
| BoolNull
| BoolUnknown
| BoolValue (b : bool).

(** An object value: null, or its attributes. *)
Inductive Object : Type :=
| ObjectNull
| ObjectValueMust (attrs : list (string * String)).

(** [ValueString] is the empty string for null and unknown. *)
Definition ValueString (v : String) : string :=
  match v with
  | StringValue s => s
  | _ => EmptyString
  end.

(** [ValueBool] is false for null and unknown. *)
Definition ValueBool (v : Bool) : bool :=
  match v with
  | BoolValue b => b
  | _ => false
  end.

Definition IsNull (v : String) : bool :=
  match v with
  | StringNull => true
  | _ => false
  end.

(** [Equal]: same state and, when known, same value. *)
Definition String_Equal (v o : String) : bool :=
  match v, o with
  | StringNull, StringNull => true
  | StringUnknown, StringUnknown => true
  | StringValue a, StringValue b => String.eqb a b
  | _, _ => false
  end.

Definition Bool_Equal (v o : Bool) : bool :=
  match v, o with
  | BoolNull, BoolNull => true
  | BoolUnknown, BoolUnknown => true
  | BoolValue a, BoolValue b => Bool.eqb a b
  | _, _ => false
  end.

End types.

(** ** Fields of an update request

    Every [Update] starts from a zero-valued request struct and assigns a
    field only when the plan's value differs from the state's. *)

(** [if !plan.F.Equal(state.F) { updateReq.F = plan.F.ValueString() }] *)
Definition changed_string (plan state : types.String) : string :=
  if negb (types.String_Equal plan state) then types.ValueString plan
  else EmptyString.

(** [if !plan.F.Equal(state.F) { updateReq.F = plan.F.ValueBool() }] *)
Definition changed_bool (plan state : types.Bool) : bool :=
  if negb (types.Bool_Equal plan state) then types.ValueBool plan
  else false.

(** [if !plan.F.Equal(state.F) { b := plan.F.ValueBool(); updateReq.F = &b }] *)
Definition changed_bool_ptr (plan state : types.Bool) : option bool :=
  if negb (types.Bool_Equal plan state) then Some (types.ValueBool plan)
  else None.

(** ** encoding/json *)

Inductive JSON : Type :=
| JString (s : string)
| JBool (b : bool).

(** A marshalled struct: its members in declaration order. *)
Definition JObject : Type := list (string * JSON).

(** A member without [omitempty]. *)
Definition member (key : string) (v : JSON) : JObject := [(key, v)].

(** [omitempty] leaves out the empty string, false and the nil pointer. *)
Definition omitempty_string (key : string) (s : string) : JObject :=
  if String.eqb s EmptyString then [] else [(key, JString s)].

Definition omitempty_bool (key : string) (b : bool) : JObject :=
  if b then [(key, JBool true)] else [].

Definition omitempty_ptr_bool (key : string) (p : option bool) : JObject :=
  match p with
  | None => []
  | Some b => [(key, JBool b)]
  end.

(** The value of a member of the object, if it is there. *)
Fixpoint member_of (key : string) (o : JObject) : option JSON :=
  match o with
  | [] => None
  | (k, v) :: rest => if String.eqb k key then Some v else member_of key rest
  end.

Definition has_member (key : string) (o : JObject) : bool :=
  match member_of key o with
  | Some _ => true
  | None => false
  end.

(** [json.Unmarshal] into a value of type [A]. *)
Class Unmarshal (A : Type) : Type := json_Unmarshal : string -> result A.

(** ** net/http *)

Inductive Method : Type := MethodGet | MethodPost | MethodPatch | MethodDelete.

Module Request.
Record t : Type := mk {
  Method_ : Method;
  URL : string;
  Header : list (string * string);
  Body : option JObject
}.
End Request.

Module Response.
Record t : Type := mk {
  StatusCode : Z;
(** what [io.ReadAll(httpResp.Body)] returns *)
Body : result string
}.
End Response.

Definition Header_Set (r : Request.t) (key value : string) : Request.t :=
  Request.mk (Request.Method_ r) (Request.URL r)
             (Request.Header r ++ [(key, value)]) (Request.Body r).

Record InfradotsProvider : Type := {
  client : Request.t -> result Response.t;
  host : string;
  token : string
}.

(** ** Handlers *)

Record Diagnostic : Type := { Summary : string; Detail : string }.

(** What a handler has produced so far: the response state ([None] once the
    resource is removed, or while nothing is set), the error diagnostics in
    the order they were added, and the requests given to the client. *)
Record Frame (S : Type) : Type := {
  State : option S;
  Diagnostics : list Diagnostic;
  Sent : list Request.t
}.

(** A handler step; [None] as value means the handler has returned. *)
Definition M (S A : Type) : Type := Frame S -> option A * Frame S.

Section Handler.
Context {S : Type}.

Definition ret {A} (a : A) : M S A := fun f => (Some a, f).

Definition bind {A B} (m : M S A) (k : A -> M S B) : M S B :=
  fun f => match m f with
           | (Some a, f') => k a f'
           | (None, f') => (None, f')
           end.

(** [return] in the middle of a handler. *)
Definition Return {A} : M S A := fun f => (None, f).

Definition AddError (summary detail : string) : M S unit :=
  fun f => (Some tt, {| State := State f;
                        Diagnostics := Diagnostics f ++ [{| Summary := summary; Detail := detail |}];
                        Sent := Sent f |}).

Definition RemoveResource : M S unit :=
  fun f => (Some tt, {| State := None; Diagnostics := Diagnostics f; Sent := Sent f |}).

(** [resp.State.Set(ctx, &data)]; a model of the schema's type sets
    without diagnostics. *)
Definition State_Set (data : S) : M S unit :=
  fun f => (Some tt, {| State := Some data; Diagnostics := Diagnostics f; Sent := Sent f |}).

(** [r.provider.client.Do(req)]. *)
Definition Do (p : InfradotsProvider) (req : Request.t) : M S (result Response.t) :=
  fun f => (Some (client p req),
            {| State := State f; Diagnostics := Diagnostics f; Sent := Sent f ++ [req] |}).

(** [v, err := call; if err != nil { AddError(summary, err.Error()); return }]. *)
Definition check {A} (r : result A) (summary : string) : M S A :=
  match r with
  | Ok a => ret a
  | Err e => bind (AddError summary e) (fun _ => Return)
  end.

(** Runs a handler on the response the framework hands it. *)
Definition run (h : M S unit) (initial : option S) : Frame S :=
  snd (h {| State := initial; Diagnostics := []; Sent := [] |}).

End Handler.

Notation "x <- c1 ;; c2" := (bind c1 (fun x => c2))
  (at level 61, c1 at next level, right associativity).
Notation "c1 ;; c2" := (bind c1 (fun _ => c2))
  (at level 61, right associativity).

Definition HasError {S} (f : Frame S) : bool :=
  match Diagnostics f with
  | [] => false
  | _ :: _ => true
  end.

(** ** Reading the configuration *)

(** The framework reflects an object into a struct only when they have the
    same fields: no [tfsdk] field of the struct may be missing from the
    object, and no attribute of the object from the struct. *)
Definition struct_matches (objectFields targetFields : list string) : bool :=
  andb (forallb (fun field => existsb (String.eqb field) objectFields)
                targetFields)
       (forallb (fun field => existsb (String.eqb field) targetFields)
                objectFields).

Section Reflection.
(** The detail of the framework's diagnostic for a struct that does not match
    the object. *)
Variable conversion_error : list string -> list string -> string.

(** [resp.Diagnostics.Append(req.Config.Get(ctx, &target)...);
    if resp.Diagnostics.HasError() { return }], for the configuration of a
    schema with the attributes [objectFields] and a struct with the [tfsdk]
    fields [targetFields]; [values] is what the configuration holds for the
    fields of the struct. *)
Definition Config_Get {S A} (objectFields targetFields : list string)
  (values : A) : M S A :=
  fun f =>
    let f' :=
      if struct_matches objectFields targetFields then f
      else {| State := State f;
              Diagnostics :=
                Diagnostics f
                ++ [{| Summary := "Value Conversion Error";
                       Detail := conversion_error objectFields targetFields |}];
              Sent := Sent f |} in
    if HasError f' then (None, f') else (Some values, f').
End Reflection.

Section NetHTTP.
(** The parse error of [http.NewRequest] for a URL, if it has one. *)
Variable url_error : string -> option string.

Definition NewRequest (m : Method) (url : string) (body : option JObject)
  : result Request.t :=
  match url_error url with
  | Some e => Err e
  | None => Ok (Request.mk m url [] body)
  end.
End NetHTTP.

(** ** Organization resource (resource_organization.go) *)

Module OrganizationResourceModel.
Record t : Type := mk {
  ID : types.String;
  Name : types.String;
CreatedAt : types.String;
UpdatedAt : types.String;
ExecutionMode : types.String;
AgentsEnabled : types.Bool
}.
End OrganizationResourceModel.

(** [Subscription] and [Tags] are decoded and never read; they are left out. *)
Module OrganizationAPIResponse.
Record t : Type := mk {
  ID : string;
  Name : string;
  Members : list string;   (* Member.Email *)
CreatedAt : Time;
UpdatedAt : Time;
Teams : list string;     (* Team.Name *)
ExecutionMode : string;
AgentsEnabled : bool
}.
End OrganizationAPIResponse.

Module OrganizationUpdateRequest.
Record t : Type := mk {
  Name : string;
  ExecutionMode : string;
  AgentsEnabled : bool
}.

(** [`json:"name,omitempty"`], [`json:"execution_mode,omitempty"`],
    [`json:"agents_enabled,omitempty"`]. *)
Definition json_Marshal (v : t) : JObject :=
  (omitempty_string "name" (Name v)
   ++ omitempty_string "execution_mode" (ExecutionMode v)
   ++ omitempty_bool "agents_enabled" (AgentsEnabled v))%list.
End OrganizationUpdateRequest.

Module OrganizationResource.
Import types.
Module Model := OrganizationResourceModel.
Module API := OrganizationAPIResponse.
Module Upd := OrganizationUpdateRequest.

(** The body of the PATCH request of [Update] (lines 265-277). *)
Definition updateReq (plan state : Model.t) : Upd.t :=
  Upd.mk
    (changed_string (Model.Name plan) (Model.Name state))
    (changed_string (Model.ExecutionMode plan) (Model.ExecutionMode state))
    (changed_bool (Model.AgentsEnabled plan) (Model.AgentsEnabled state)).

Section Methods.
Variable url_error : string -> option string.
Context {decode : Unmarshal API.t}.
Variable r : InfradotsProvider.

Definition Create (plan : Model.t) : M Model.t unit :=
  let data := plan in
  let createReq :=
    Upd.mk (ValueString (Model.Name data))
           (ValueString (Model.ExecutionMode data))
           (ValueBool (Model.AgentsEnabled data)) in
  let reqBody := Upd.json_Marshal createReq in
  let url := "http://" ++ host r ++ "/api/organizations/" in
  reqHttp <- check (NewRequest url_error MethodPost url (Some reqBody))
                   "Error creating request" ;;
  let reqHttp := Header_Set reqHttp "Authorization" ("Bearer " ++ token r) in
  let reqHttp := Header_Set reqHttp "Content-Type" "application/json" in
  res <- Do r reqHttp ;;
  httpResp <- check res "Couldn't create Infradots organization" ;;
  respBody <- check (Response.Body httpResp) "Error reading response body" ;;
  if negb (Z.eqb (Response.StatusCode httpResp) 201) then
    AddError "Non-201 response"
             ("Status: " ++ Itoa (Response.StatusCode httpResp)
              ++ ", Body: " ++ respBody) ;;
    Return
  else
    organization <- check (json_Unmarshal respBody) "Error parsing response" ;;
    State_Set
      (Model.mk
         (StringValue (API.ID organization))
         (Model.Name data)
         (StringValue (Format_RFC3339 (API.CreatedAt organization)))
         (StringValue (Format_RFC3339 (API.UpdatedAt organization)))
         (StringValue (strings_ToLower (API.ExecutionMode organization)))
         (BoolValue (API.AgentsEnabled organization))).

Definition Read (state : Model.t) : M Model.t unit :=
  let data := state in
  let url := "http://" ++ host r ++ "/api/organizations/"
             ++ ValueString (Model.ID data) ++ "/" in
  reqHttp <- check (NewRequest url_error MethodGet url None)
                   "Error creating request" ;;
  let reqHttp := Header_Set reqHttp "Authorization" ("Bearer " ++ token r) in
  res <- Do r reqHttp ;;
  httpResp <- check res "HTTP request failed" ;;
  if Z.eqb (Response.StatusCode httpResp) 404 then
    RemoveResource ;;
    Return
  else if negb (Z.eqb (Response.StatusCode httpResp) 200) then
    AddError "Read failed"
             ("Status code: " ++ Itoa (Response.StatusCode httpResp)) ;;
    Return
  else
    respBody <- check (Response.Body httpResp) "Error reading response body" ;;
    organization <- check (json_Unmarshal respBody) "Error parsing response" ;;
    State_Set
      (Model.mk
         (StringValue (API.ID organization))
         (StringValue (API.Name organization))
         (StringValue (Format_RFC3339 (API.CreatedAt organization)))
         (StringValue (Format_RFC3339 (API.UpdatedAt organization)))
         (StringValue (API.ExecutionMode organization))
         (BoolValue (API.AgentsEnabled organization))).

Definition Update (plan state : Model.t) : M Model.t unit :=
  let reqBody := Upd.json_Marshal (updateReq plan state) in
  let url := "http://" ++ host r ++ "/api/organizations/"
             ++ ValueString (Model.ID plan) ++ "/" in
  reqHttp <- check (NewRequest url_error MethodPatch url (Some reqBody))
                   "Error creating request" ;;
  let reqHttp := Header_Set reqHttp "Authorization" ("Bearer " ++ token r) in
  let reqHttp := Header_Set reqHttp "Content-Type" "application/json" in
  res <- Do r reqHttp ;;
  httpResp <- check res "HTTP request failed" ;;
  respBody <- check (Response.Body httpResp) "Error reading response body" ;;
  if negb (Z.eqb (Response.StatusCode httpResp) 200) then
    AddError "Update failed"
             ("Status code: " ++ Itoa (Response.StatusCode httpResp)
              ++ ", Body: " ++ respBody) ;;
    Return
  else
    organization <- check (json_Unmarshal respBody) "Error parsing response" ;;
    State_Set
      (Model.mk
         (StringValue (API.ID organization))
         (StringValue (API.Name organization))
         (StringValue (Format_RFC3339 (API.CreatedAt organization)))
         (StringValue (Format_RFC3339 (API.UpdatedAt organization)))
         (StringValue (API.ExecutionMode organization))
         (BoolValue (API.AgentsEnabled organization))).

Definition Delete (state : Model.t) : M Model.t unit :=
  let data := state in
  let url := "http://" ++ host r ++ "/api/organizations/"
             ++ ValueString (Model.ID data) ++ "/" in
  reqHttp <- check (NewRequest url_error MethodDelete url None)
                   "Error creating request" ;;
  let reqHttp := Header_Set reqHttp "Authorization" ("Bearer " ++ token r) in
  res <- Do r reqHttp ;;
  httpResp <- check res "HTTP request failed" ;;
  respBody <- check (Response.Body httpResp) "Error reading response body" ;;
  if andb (negb (Z.eqb (Response.StatusCode httpResp) 204))
          (negb (Z.eqb (Response.StatusCode httpResp) 200)) then
    AddError "Delete failed"
             ("Status code: " ++ Itoa (Response.StatusCode httpResp)
              ++ ", Body: " ++ respBody) ;;
    Return
  else
    RemoveResource.
End Methods.
End OrganizationResource.

(** ** VCS resource (the copy with [ImportState]; the older copy in
    resource_vcs.go has the same handlers over [http://], the request tags
    [vcs_type] and [url], and no import) *)

Module VCSResourceModel.
Record t : Type := mk {
  ID : types.String;
  OrganizationName : types.String;
  Name : types.String;
  VcsType : types.String;
  URL : types.String;
  ClientId : types.String;
  ClientSecret : types.String;
  Description : types.String;
CreatedAt : types.String;
UpdatedAt : types.String
}.
End VCSResourceModel.

Module VCSAPIResponse.
Record t : Type := mk {
  ID : string;
  Name : string;
  VcsType : string;
  URL : string;
  ClientId : string;
  Description : string;
CreatedAt : Time;
UpdatedAt : Time
}.
End VCSAPIResponse.

Module VCSCreateRequest.
Record t : Type := mk {
  Name : string;
  VcsType : string;
  URL : string;
  ClientId : string;
  ClientSecret : string;
  Description : string
}.

(** [`json:"name"`], [`json:"vcsType"`], [`json:"endpoint"`],
    [`json:"clientId"`], [`json:"clientSecret"`],
    [`json:"description,omitempty"`]. *)
Definition json_Marshal (v : t) : JObject :=
  (member "name" (JString (Name v))
   ++ member "vcsType" (JString (VcsType v))
   ++ member "endpoint" (JString (URL v))
   ++ member "clientId" (JString (ClientId v))
   ++ member "clientSecret" (JString (ClientSecret v))
   ++ omitempty_string "description" (Description v))%list.
End VCSCreateRequest.

Module VCSUpdateRequest.
Record t : Type := mk {
  Name : string;
  VcsType : string;
  URL : string;
  ClientId : string;
  ClientSecret : string;
  Description : string
}.

(** The tags of [VCSCreateRequest], each with [omitempty]. *)
Definition json_Marshal (v : t) : JObject :=
  (omitempty_string "name" (Name v)
   ++ omitempty_string "vcsType" (VcsType v)
   ++ omitempty_string "endpoint" (URL v)
   ++ omitempty_string "clientId" (ClientId v)
   ++ omitempty_string "clientSecret" (ClientSecret v)
   ++ omitempty_string "description" (Description v))%list.
End VCSUpdateRequest.

Module VCSResource.
Import types.
Module Model := VCSResourceModel.
Module API := VCSAPIResponse.

Definition updateReq (plan state : Model.t) : VCSUpdateRequest.t :=
  VCSUpdateRequest.mk
    (changed_string (Model.Name plan) (Model.Name state))
    (changed_string (Model.VcsType plan) (Model.VcsType state))
    (changed_string (Model.URL plan) (Model.URL state))
    (changed_string (Model.ClientId plan) (Model.ClientId state))
    (changed_string (Model.ClientSecret plan) (Model.ClientSecret state))
    (changed_string (Model.Description plan) (Model.Description state)).

(** The assignments [data.ID = types.StringValue(vcs.ID)] ... shared by
    [Create], [Read] and [Update]: [OrganizationName] and [ClientSecret]
    are not assigned. *)
Definition fromResponse (data : Model.t) (vcs : API.t) : Model.t :=
  Model.mk
    (StringValue (API.ID vcs))
    (Model.OrganizationName data)
    (StringValue (API.Name vcs))
    (StringValue (API.VcsType vcs))
    (StringValue (API.URL vcs))
    (StringValue (API.ClientId vcs))
    (Model.ClientSecret data)
    (StringValue (API.Description vcs))
    (StringValue (Format_RFC3339 (API.CreatedAt vcs)))
    (StringValue (Format_RFC3339 (API.UpdatedAt vcs))).

(** [for i := range vcsList { if vcsList[i].Name == vcsName { ...; break } }] *)
Fixpoint find (vcsList : list API.t) (vcsName : string) : option API.t :=
  match vcsList with
  | [] => None
  | vcs :: rest =>
      if String.eqb (API.Name vcs) vcsName then Some vcs else find rest vcsName
  end.

(** [var data VCSResourceModel]: every field null. *)
Definition zero : Model.t :=
  Model.mk StringNull StringNull StringNull StringNull StringNull
           StringNull StringNull StringNull StringNull StringNull.

Section Methods.
Variable url_error : string -> option string.
Context {decode : Unmarshal API.t} {decodeList : Unmarshal (list API.t)}.
Variable r : InfradotsProvider.

Definition Create (plan : Model.t) : M Model.t unit :=
  let data := plan in
  let createReq :=
    VCSCreateRequest.mk
      (ValueString (Model.Name data)) (ValueString (Model.VcsType data))
      (ValueString (Model.URL data)) (ValueString (Model.ClientId data))
      (ValueString (Model.ClientSecret data))
      (ValueString (Model.Description data)) in
  let reqBody := VCSCreateRequest.json_Marshal createReq in
  let url := "https://" ++ host r ++ "/api/organizations/"
             ++ ValueString (Model.OrganizationName data) ++ "/vcs/" in
  reqHttp <- check (NewRequest url_error MethodPost url (Some reqBody))
                   "Error creating request" ;;
  let reqHttp := Header_Set reqHttp "Authorization" ("Bearer " ++ token r) in
  let reqHttp := Header_Set reqHttp "Content-Type" "application/json" in
  res <- Do r reqHttp ;;
  httpResp <- check res "HTTP request failed" ;;
  respBody <- check (Response.Body httpResp) "Error reading response body" ;;
  if negb (Z.eqb (Response.StatusCode httpResp) 201) then
    AddError "Non-201 response"
             ("Status: " ++ Itoa (Response.StatusCode httpResp)
              ++ ", Body: " ++ respBody) ;;
    Return
  else
    vcs <- check (json_Unmarshal respBody) "Error parsing response" ;;
    State_Set (fromResponse data vcs).

Definition Read (state : Model.t) : M Model.t unit :=
  let data := state in
  let url := "https://" ++ host r ++ "/api/organizations/"
             ++ ValueString (Model.OrganizationName data) ++ "/vcs/"
             ++ ValueString (Model.ID data) ++ "/" in
  reqHttp <- check (NewRequest url_error MethodGet url None)
                   "Error creating request" ;;
  let reqHttp := Header_Set reqHttp "Authorization" ("Bearer " ++ token r) in
  res <- Do r reqHttp ;;
  httpResp <- check res "HTTP request failed" ;;
  if Z.eqb (Response.StatusCode httpResp) 404 then
    RemoveResource ;;
    Return
  else if negb (Z.eqb (Response.StatusCode httpResp) 200) then
    AddError "Read failed"
             ("Status code: " ++ Itoa (Response.StatusCode httpResp)) ;;
    Return
  else
    respBody <- check (Response.Body httpResp) "Error reading response body" ;;
    vcs <- check (json_Unmarshal respBody) "Error parsing response" ;;
    State_Set (fromResponse data vcs).

Definition Update (plan state : Model.t) : M Model.t unit :=
  let reqBody := VCSUpdateRequest.json_Marshal (updateReq plan state) in
  let url := "https://" ++ host r ++ "/api/organizations/"
             ++ ValueString (Model.OrganizationName plan) ++ "/vcs/"
             ++ ValueString (Model.ID plan) ++ "/" in
  reqHttp <- check (NewRequest url_error MethodPatch url (Some reqBody))
                   "Error creating request" ;;
  let reqHttp := Header_Set reqHttp "Authorization" ("Bearer " ++ token r) in
  let reqHttp := Header_Set reqHttp "Content-Type" "application/json" in
  res <- Do r reqHttp ;;
  httpResp <- check res "HTTP request failed" ;;
  respBody <- check (Response.Body httpResp) "Error reading response body" ;;
  if negb (Z.eqb (Response.StatusCode httpResp) 200) then
    AddError "Update failed"
             ("Status code: " ++ Itoa (Response.StatusCode httpResp)
              ++ ", Body: " ++ respBody) ;;
    Return
  else
    vcs <- check (json_Unmarshal respBody) "Error parsing response" ;;
    State_Set (fromResponse plan vcs).

Definition Delete (state : Model.t) : M Model.t unit :=
  let data := state in
  let url := "https://" ++ host r ++ "/api/organizations/"
             ++ ValueString (Model.OrganizationName data) ++ "/vcs/"
             ++ ValueString (Model.ID data) ++ "/" in
  reqHttp <- check (NewRequest url_error MethodDelete url None)
                   "Error creating request" ;;
  let reqHttp := Header_Set reqHttp "Authorization" ("Bearer " ++ token r) in
  res <- Do r reqHttp ;;
  httpResp <- check res "HTTP request failed" ;;
  respBody <- check (Response.Body httpResp) "Error reading response body" ;;
  if andb (negb (Z.eqb (Response.StatusCode httpResp) 204))
          (negb (Z.eqb (Response.StatusCode httpResp) 200)) then
    AddError "Delete failed"
             ("Status code: " ++ Itoa (Response.StatusCode httpResp)
              ++ ", Body: " ++ respBody) ;;
    Return
  else
    RemoveResource.

Definition ImportState (ID : string) : M Model.t unit :=
  let parts := strings_Split ID ":" in
  if negb (Nat.eqb (length parts) 2) then
    AddError "Invalid import ID format"
             "Import ID must be in the format 'organization_name:vcs_name'" ;;
    Return
  else
      let organizationName := nth 0 parts EmptyString in
      let vcsName := nth 1 parts EmptyString in
      let url := "https://" ++ host r ++ "/api/organizations/"
                 ++ organizationName ++ "/vcs/" in
      reqHttp <- check (NewRequest url_error MethodGet url None)
                       "Error creating request" ;;
      let reqHttp := Header_Set reqHttp "Authorization" ("Bearer " ++ token r) in
      res <- Do r reqHttp ;;
      httpResp <- check res "HTTP request failed" ;;
      if negb (Z.eqb (Response.StatusCode httpResp) 200) then
        (* respBody, _ := io.ReadAll(httpResp.Body) *)
        let respBody := match Response.Body httpResp with
                        | Ok b => b
                        | Err _ => EmptyString
                        end in
        AddError "Failed to fetch VCS connections"
                 ("Status code: " ++ Itoa (Response.StatusCode httpResp)
                  ++ ", Body: " ++ respBody) ;;
        Return
      else
        respBody <- check (Response.Body httpResp) "Error reading response body" ;;
        vcsList <- check (json_Unmarshal respBody) "Error parsing response" ;;
        match find vcsList vcsName with
        | None =>
            AddError "VCS connection not found"
                     ("No VCS connection with name '" ++ vcsName
                      ++ "' found in organization '" ++ organizationName ++ "'") ;;
            Return
        | Some vcs =>
            let data := zero in
            State_Set
              (Model.mk
                 (StringValue (API.ID vcs))
                 (StringValue organizationName)
                 (StringValue (API.Name vcs))
                 (StringValue (API.VcsType vcs))
                 (StringValue (API.URL vcs))
                 (StringValue (API.ClientId vcs))
                 (Model.ClientSecret data)
                 (StringValue (API.Description vcs))
                 (StringValue (Format_RFC3339 (API.CreatedAt vcs)))
                 (StringValue (Format_RFC3339 (API.UpdatedAt vcs))))
        end.
End Methods.
End VCSResource.

(** ** Workspace resource (resource_vcs.go, the copy with the nested [vcs]
    object and [ImportState]; the older copy below it has the same handlers
    without [vcs], addressed by id over [http://]) *)

Module WorkspaceResourceModel.
Record t : Type := mk {
  ID : types.String;
  OrganizationName : types.String;
  Name : types.String;
  Description : types.String;
  Source : types.String;
  Branch : types.String;
  TerraformVersion : types.String;
CreatedAt : types.String;
UpdatedAt : types.String;
VcsId : types.String;
VCS : types.Object
}.
End WorkspaceResourceModel.

Module WorkspaceAPIResponse.
Record t : Type := mk {
  ID : string;
  Name : string;
  Description : string;
  Source : string;
  Branch : string;
  TerraformVersion : string;
CreatedAt : Time;
UpdatedAt : Time;
VCS : option VCSAPIResponse.t
}.
End WorkspaceAPIResponse.

Module WorkspaceCreateRequest.
Record t : Type := mk {
  Name : string;
  Description : string;
  Source : string;
  Branch : string;
  TerraformVersion : string
}.

Definition json_Marshal (v : t) : JObject :=
  (member "name" (JString (Name v))
   ++ omitempty_string "description" (Description v)
   ++ member "source" (JString (Source v))
   ++ member "branch" (JString (Branch v))
   ++ member "terraform_version" (JString (TerraformVersion v)))%list.
End WorkspaceCreateRequest.

Module WorkspaceUpdateRequest.
Record t : Type := mk {
  Name : string;
  Description : string;
  Source : string;
  Branch : string;
  TerraformVersion : string
}.

Definition json_Marshal (v : t) : JObject :=
  (omitempty_string "name" (Name v)
   ++ omitempty_string "description" (Description v)
   ++ omitempty_string "source" (Source v)
   ++ omitempty_string "branch" (Branch v)
   ++ omitempty_string "terraform_version" (TerraformVersion v))%list.
End WorkspaceUpdateRequest.

Definition vcsToObject (vcs : option VCSAPIResponse.t) : types.Object :=
  match vcs with
  | None => types.ObjectNull
  | Some vcs =>
      types.ObjectValueMust
        [("id", types.StringValue (VCSAPIResponse.ID vcs));
         ("name", types.StringValue (VCSAPIResponse.Name vcs));
         ("vcs_type", types.StringValue (VCSAPIResponse.VcsType vcs));
         ("url", types.StringValue (VCSAPIResponse.URL vcs));
         ("description", types.StringValue (VCSAPIResponse.Description vcs));
         ("created_at",
          types.StringValue (Format_RFC3339 (VCSAPIResponse.CreatedAt vcs)));
         ("updated_at",
          types.StringValue (Format_RFC3339 (VCSAPIResponse.UpdatedAt vcs)))]
  end.

Module WorkspaceResource.
Import types.
Module Model := WorkspaceResourceModel.
Module API := WorkspaceAPIResponse.

Definition updateReq (plan state : Model.t) : WorkspaceUpdateRequest.t :=
  WorkspaceUpdateRequest.mk
    (changed_string (Model.Name plan) (Model.Name state))
    (changed_string (Model.Description plan) (Model.Description state))
    (changed_string (Model.Source plan) (Model.Source state))
    (changed_string (Model.Branch plan) (Model.Branch state))
    (changed_string (Model.TerraformVersion plan) (Model.TerraformVersion state)).

(** The assignments shared by [Create], [Read] and [Update]:
    [OrganizationName] and [VcsId] are not assigned. *)
Definition fromResponse (data : Model.t) (workspace : API.t) : Model.t :=
  Model.mk
    (StringValue (API.ID workspace))
    (Model.OrganizationName data)
    (StringValue (API.Name workspace))
    (StringValue (API.Description workspace))
    (StringValue (API.Source workspace))
    (StringValue (API.Branch workspace))
    (StringValue (API.TerraformVersion workspace))
    (StringValue (Format_RFC3339 (API.CreatedAt workspace)))
    (StringValue (Format_RFC3339 (API.UpdatedAt workspace)))
    (Model.VcsId data)
    (vcsToObject (API.VCS workspace)).

(** [for i := range workspaces { if workspaces[i].Name == workspaceName
    { ...; break } }] *)
Fixpoint find (workspaces : list API.t) (workspaceName : string)
  : option API.t :=
  match workspaces with
  | [] => None
  | workspace :: rest =>
      if String.eqb (API.Name workspace) workspaceName then Some workspace
      else find rest workspaceName
  end.

(** [var data WorkspaceResourceModel]: strings null; the zero
    [types.Object] is null as well. *)
Definition zero : Model.t :=
  Model.mk StringNull StringNull StringNull StringNull StringNull StringNull
           StringNull StringNull StringNull StringNull ObjectNull.

Section Methods.
Variable url_error : string -> option string.
Context {decode : Unmarshal API.t} {decodeList : Unmarshal (list API.t)}.
Variable r : InfradotsProvider.

Definition Create (plan : Model.t) : M Model.t unit :=
  let data := plan in
  let createReq :=
    WorkspaceCreateRequest.mk
      (ValueString (Model.Name data)) (ValueString (Model.Description data))
      (ValueString (Model.Source data)) (ValueString (Model.Branch data))
      (ValueString (Model.TerraformVersion data)) in
  let reqBody := WorkspaceCreateRequest.json_Marshal createReq in
  let url := "https://" ++ host r ++ "/api/organizations/"
             ++ ValueString (Model.OrganizationName data) ++ "/workspaces/" in
  reqHttp <- check (NewRequest url_error MethodPost url (Some reqBody))
                   "Error creating request" ;;
  let reqHttp := Header_Set reqHttp "Authorization" ("Bearer " ++ token r) in
  let reqHttp := Header_Set reqHttp "Content-Type" "application/json" in
  res <- Do r reqHttp ;;
  httpResp <- check res "HTTP request failed" ;;
  respBody <- check (Response.Body httpResp) "Error reading response body" ;;
  if negb (Z.eqb (Response.StatusCode httpResp) 201) then
    AddError "Non-201 response"
             ("Status: " ++ Itoa (Response.StatusCode httpResp)
              ++ ", Body: " ++ respBody) ;;
    Return
  else
    workspace <- check (json_Unmarshal respBody) "Error parsing response" ;;
    State_Set (fromResponse data workspace).

Definition Read (state : Model.t) : M Model.t unit :=
  let data := state in
  let url := "https://" ++ host r ++ "/api/organizations/"
             ++ ValueString (Model.OrganizationName data) ++ "/workspaces/"
             ++ ValueString (Model.Name data) ++ "/" in
  reqHttp <- check (NewRequest url_error MethodGet url None)
                   "Error creating request" ;;
  let reqHttp := Header_Set reqHttp "Authorization" ("Bearer " ++ token r) in
  res <- Do r reqHttp ;;
  httpResp <- check res "HTTP request failed" ;;
  if Z.eqb (Response.StatusCode httpResp) 404 then
    RemoveResource ;;
    Return
  else if negb (Z.eqb (Response.StatusCode httpResp) 200) then
    AddError "Read failed"
             ("Status code: " ++ Itoa (Response.StatusCode httpResp)) ;;
    Return
  else
    respBody <- check (Response.Body httpResp) "Error reading response body" ;;
    workspace <- check (json_Unmarshal respBody) "Error parsing response" ;;
    State_Set (fromResponse data workspace).

Definition Update (plan state : Model.t) : M Model.t unit :=
  let reqBody := WorkspaceUpdateRequest.json_Marshal (updateReq plan state) in
  let url := "https://" ++ host r ++ "/api/organizations/"
             ++ ValueString (Model.OrganizationName plan) ++ "/workspaces/"
             ++ ValueString (Model.Name state) ++ "/" in
  reqHttp <- check (NewRequest url_error MethodPatch url (Some reqBody))
                   "Error creating request" ;;
  let reqHttp := Header_Set reqHttp "Authorization" ("Bearer " ++ token r) in
  let reqHttp := Header_Set reqHttp "Content-Type" "application/json" in
  res <- Do r reqHttp ;;
  httpResp <- check res "HTTP request failed" ;;
  respBody <- check (Response.Body httpResp) "Error reading response body" ;;
  if negb (Z.eqb (Response.StatusCode httpResp) 200) then
    AddError "Update failed"
             ("Status code: " ++ Itoa (Response.StatusCode httpResp)
              ++ ", Body: " ++ respBody) ;;
    Return
  else
    workspace <- check (json_Unmarshal respBody) "Error parsing response" ;;
    State_Set (fromResponse plan workspace).

Definition Delete (state : Model.t) : M Model.t unit :=
  let data := state in
  let url := "https://" ++ host r ++ "/api/organizations/"
             ++ ValueString (Model.OrganizationName data) ++ "/workspaces/"
             ++ ValueString (Model.Name data) ++ "/" in
  reqHttp <- check (NewRequest url_error MethodDelete url None)
                   "Error creating request" ;;
  let reqHttp := Header_Set reqHttp "Authorization" ("Bearer " ++ token r) in
  res <- Do r reqHttp ;;
  httpResp <- check res "HTTP request failed" ;;
  respBody <- check (Response.Body httpResp) "Error reading response body" ;;
  if andb (negb (Z.eqb (Response.StatusCode httpResp) 204))
          (negb (Z.eqb (Response.StatusCode httpResp) 200)) then
    AddError "Delete failed"
             ("Status code: " ++ Itoa (Response.StatusCode httpResp)
              ++ ", Body: " ++ respBody) ;;
    Return
  else
    RemoveResource.

Definition ImportState (ID : string) : M Model.t unit :=
  let parts := strings_Split ID ":" in
  if negb (Nat.eqb (length parts) 2) then
    AddError "Invalid import ID format"
             "Import ID must be in the format 'organization_name:workspace_name'" ;;
    Return
  else
    let organizationName := nth 0 parts EmptyString in
    let workspaceName := nth 1 parts EmptyString in
    let url := "https://" ++ host r ++ "/api/organizations/"
               ++ organizationName ++ "/workspaces/" in
    reqHttp <- check (NewRequest url_error MethodGet url None)
                     "Error creating request" ;;
    let reqHttp := Header_Set reqHttp "Authorization" ("Bearer " ++ token r) in
    res <- Do r reqHttp ;;
    httpResp <- check res "HTTP request failed" ;;
    if negb (Z.eqb (Response.StatusCode httpResp) 200) then
      (* respBody, _ := io.ReadAll(httpResp.Body) *)
      let respBody := match Response.Body httpResp with
                      | Ok b => b
                      | Err _ => EmptyString
                      end in
      AddError "Failed to fetch workspaces"
               ("Status code: " ++ Itoa (Response.StatusCode httpResp)
                ++ ", Body: " ++ respBody) ;;
      Return
    else
      respBody <- check (Response.Body httpResp) "Error reading response body" ;;
      workspaces <- check (json_Unmarshal respBody) "Error parsing response" ;;
      match find workspaces workspaceName with
      | None =>
          AddError "Workspace not found"
                   ("No workspace with name '" ++ workspaceName
                    ++ "' found in organization '" ++ organizationName ++ "'") ;;
          Return
      | Some workspace =>
          let data := zero in
          State_Set
            (Model.mk
               (StringValue (API.ID workspace))
               (StringValue organizationName)
               (StringValue (API.Name workspace))
               (StringValue (API.Description workspace))
               (StringValue (API.Source workspace))
               (StringValue (API.Branch workspace))
               (StringValue (API.TerraformVersion workspace))
               (StringValue (Format_RFC3339 (API.CreatedAt workspace)))
               (StringValue (Format_RFC3339 (API.UpdatedAt workspace)))
               (Model.VcsId data)
               (vcsToObject (API.VCS workspace)))
      end.
End Methods.
End WorkspaceResource.

(** ** Variable resource *)

Module VariableResourceModel.
Record t : Type := mk {
  ID : types.String;
  OrganizationName : types.String;
  Key : types.String;
  Value : types.String;
  Description : types.String;
  Category : types.String;
  Sensitive : types.Bool;
  HCL : types.Bool;
CreatedAt : types.String;
UpdatedAt : types.String
}.
End VariableResourceModel.

Module VariableAPIResponse.
Record t : Type := mk {
  ID : string;
  Key : string;
  Value : string;
  Description : string;
  Category : string;
  Sensitive : bool;
  HCL : bool;
CreatedAt : Time;
UpdatedAt : Time
}.
End VariableAPIResponse.

Module VariableCreateRequest.
Record t : Type := mk {
  Key : string;
  Value : string;
  Description : string;
  Category : string;
  Sensitive : bool;
  HCL : bool
}.

Definition json_Marshal (v : t) : JObject :=
  (member "key" (JString (Key v))
   ++ member "value" (JString (Value v))
   ++ omitempty_string "description" (Description v)
   ++ omitempty_string "category" (Category v)
   ++ omitempty_bool "sensitive" (Sensitive v)
   ++ omitempty_bool "hcl" (HCL v))%list.
End VariableCreateRequest.

Module VariableUpdateRequest.
Record t : Type := mk {
  Key : string;
  Value : string;
  Description : string;
  Category : string;
  Sensitive : option bool;   (* *bool *)
  HCL : option bool          (* *bool *)
}.

Definition json_Marshal (v : t) : JObject :=
  (omitempty_string "key" (Key v)
   ++ omitempty_string "value" (Value v)
   ++ omitempty_string "description" (Description v)
   ++ omitempty_string "category" (Category v)
   ++ omitempty_ptr_bool "sensitive" (Sensitive v)
   ++ omitempty_ptr_bool "hcl" (HCL v))%list.
End VariableUpdateRequest.

Module VariableResource.
Import types.
Module Model := VariableResourceModel.
Module API := VariableAPIResponse.

Definition updateReq (plan state : Model.t) : VariableUpdateRequest.t :=
VariableUpdateRequest.mk
  (changed_string (Model.Key plan) (Model.Key state))
  (changed_string (Model.Value plan) (Model.Value state))
  (changed_string (Model.Description plan) (Model.Description state))
  (changed_string (Model.Category plan) (Model.Category state))
  (changed_bool_ptr (Model.Sensitive plan) (Model.Sensitive state))
  (changed_bool_ptr (Model.HCL plan) (Model.HCL state)).

(** The assignments shared by [Create], [Read] and [Update]: only
    [OrganizationName] is not assigned; [Value] is. *)
Definition fromResponse (data : Model.t) (variable : API.t) : Model.t :=
  Model.mk
    (StringValue (API.ID variable))
    (Model.OrganizationName data)
    (StringValue (API.Key variable))
    (StringValue (API.Value variable))
    (StringValue (API.Description variable))
    (StringValue (API.Category variable))
    (BoolValue (API.Sensitive variable))
    (BoolValue (API.HCL variable))
    (StringValue (Format_RFC3339 (API.CreatedAt variable)))
    (StringValue (Format_RFC3339 (API.UpdatedAt variable))).

Section Methods.
Variable url_error : string -> option string.
Context {decode : Unmarshal API.t}.
Variable r : InfradotsProvider.

Definition Create (plan : Model.t) : M Model.t unit :=
  let data := plan in
  let createReq :=
VariableCreateRequest.mk
  (ValueString (Model.Key data)) (ValueString (Model.Value data))
  (ValueString (Model.Description data))
  (ValueString (Model.Category data))
  (ValueBool (Model.Sensitive data)) (ValueBool (Model.HCL data)) in
let reqBody := VariableCreateRequest.json_Marshal createReq in
let url := "http://" ++ host r ++ "/api/organizations/"
         ++ ValueString (Model.OrganizationName data) ++ "/variables/" in
reqHttp <- check (NewRequest url_error MethodPost url (Some reqBody))
               "Error creating request" ;;
let reqHttp := Header_Set reqHttp "Authorization" ("Bearer " ++ token r) in
let reqHttp := Header_Set reqHttp "Content-Type" "application/json" in
res <- Do r reqHttp ;;
httpResp <- check res "HTTP request failed" ;;
respBody <- check (Response.Body httpResp) "Error reading response body" ;;
if negb (Z.eqb (Response.StatusCode httpResp) 201) then
AddError "Non-201 response"
         ("Status: " ++ Itoa (Response.StatusCode httpResp)
          ++ ", Body: " ++ respBody) ;;
Return
else
variable <- check (json_Unmarshal respBody) "Error parsing response" ;;
State_Set (fromResponse data variable).

Definition Read (state : Model.t) : M Model.t unit :=
  let data := state in
  let url := "http://" ++ host r ++ "/api/organizations/"
             ++ ValueString (Model.OrganizationName data) ++ "/variables/"
             ++ ValueString (Model.ID data) ++ "/" in
  reqHttp <- check (NewRequest url_error MethodGet url None)
                   "Error creating request" ;;
  let reqHttp := Header_Set reqHttp "Authorization" ("Bearer " ++ token r) in
  res <- Do r reqHttp ;;
  httpResp <- check res "HTTP request failed" ;;
  if Z.eqb (Response.StatusCode httpResp) 404 then
    RemoveResource ;;
    Return
  else if negb (Z.eqb (Response.StatusCode httpResp) 200) then
    AddError "Read failed"
             ("Status code: " ++ Itoa (Response.StatusCode httpResp)) ;;
    Return
  else
    respBody <- check (Response.Body httpResp) "Error reading response body" ;;
    variable <- check (json_Unmarshal respBody) "Error parsing response" ;;
    State_Set (fromResponse data variable).

Definition Update (plan state : Model.t) : M Model.t unit :=
  let reqBody := VariableUpdateRequest.json_Marshal (updateReq plan state) in
  let url := "http://" ++ host r ++ "/api/organizations/"
             ++ ValueString (Model.OrganizationName plan) ++ "/variables/"
             ++ ValueString (Model.ID plan) ++ "/" in
  reqHttp <- check (NewRequest url_error MethodPatch url (Some reqBody))
                   "Error creating request" ;;
  let reqHttp := Header_Set reqHttp "Authorization" ("Bearer " ++ token r) in
  let reqHttp := Header_Set reqHttp "Content-Type" "application/json" in
  res <- Do r reqHttp ;;
  httpResp <- check res "HTTP request failed" ;;
  respBody <- check (Response.Body httpResp) "Error reading response body" ;;
  if negb (Z.eqb (Response.StatusCode httpResp) 200) then
    AddError "Update failed"
             ("Status code: " ++ Itoa (Response.StatusCode httpResp)
              ++ ", Body: " ++ respBody) ;;
    Return
  else
    variable <- check (json_Unmarshal respBody) "Error parsing response" ;;
    State_Set (fromResponse plan variable).

Definition Delete (state : Model.t) : M Model.t unit :=
  let data := state in
  let url := "http://" ++ host r ++ "/api/organizations/"
             ++ ValueString (Model.OrganizationName data) ++ "/variables/"
             ++ ValueString (Model.ID data) ++ "/" in
  reqHttp <- check (NewRequest url_error MethodDelete url None)
                   "Error creating request" ;;
  let reqHttp := Header_Set reqHttp "Authorization" ("Bearer " ++ token r) in
  res <- Do r reqHttp ;;
  httpResp <- check res "HTTP request failed" ;;
  respBody <- check (Response.Body httpResp) "Error reading response body" ;;
  if andb (negb (Z.eqb (Response.StatusCode httpResp) 204))
          (negb (Z.eqb (Response.StatusCode httpResp) 200)) then
    AddError "Delete failed"
             ("Status code: " ++ Itoa (Response.StatusCode httpResp)
              ++ ", Body: " ++ respBody) ;;
    Return
  else
    RemoveResource.
End Methods.
End VariableResource.

(** ** Organization data source *)

Module OrganizationDataSourceModel.
Record t : Type := mk {
  ID : types.String;
  Name : types.String;
  CreatedAt : types.String;
  UpdatedAt : types.String;
  ExecutionMode : types.String;
  AgentsEnabled : types.Bool;
  Members : list types.Object;   (* types.List of {email} *)
  Teams : list types.Object      (* types.List of {name} *)
}.
End OrganizationDataSourceModel.

Module OrganizationDataSourceFilterModel.
Record t : Type := mk {
  ID : types.String;
  Name : types.String
}.

(** The [tfsdk] tags of the struct. *)
Definition tfsdk : list string := ["id"; "name"].
End OrganizationDataSourceFilterModel.

Module OrganizationDataSource.
Import types.
Module Model := OrganizationDataSourceModel.
Module Filter := OrganizationDataSourceFilterModel.
Module API := OrganizationAPIResponse.

(** The attributes of [Schema]. *)
Definition Schema : list string :=
  ["id"; "name"; "created_at"; "updated_at"; "execution_mode";
   "agents_enabled"; "members"; "teams"].

Definition mapOrganizationToModel (apiResp : API.t) : Model.t :=
  Model.mk
    (StringValue (API.ID apiResp))
    (StringValue (API.Name apiResp))
    (StringValue (Format_RFC3339 (API.CreatedAt apiResp)))
    (StringValue (Format_RFC3339 (API.UpdatedAt apiResp)))
    (StringValue (API.ExecutionMode apiResp))
    (BoolValue (API.AgentsEnabled apiResp))
    (map (fun m => ObjectValueMust [("email", StringValue m)]) (API.Members apiResp))
    (map (fun t => ObjectValueMust [("name", StringValue t)]) (API.Teams apiResp)).

(** [for _, org := range apiRespList { if org.Name == name { ...; break } }] *)
Fixpoint find (apiRespList : list API.t) (name : string) : option API.t :=
  match apiRespList with
  | [] => None
  | org :: rest =>
      if String.eqb (API.Name org) name then Some org else find rest name
  end.

Section Methods.
Variable url_error : string -> option string.
Variable conversion_error : list string -> list string -> string.
Context {decode : Unmarshal API.t} {decodeList : Unmarshal (list API.t)}.
Variable d : InfradotsProvider.

Definition Read (config : Filter.t) : M Model.t unit :=
  filter <- Config_Get conversion_error Schema Filter.tfsdk config ;;
  if andb (IsNull (Filter.ID filter)) (IsNull (Filter.Name filter)) then
    AddError "Missing required parameter"
             "Either id or name must be specified" ;;
    Return
  else
    let url :=
      if negb (IsNull (Filter.ID filter)) then
        "https://" ++ host d ++ "/api/organizations/"
        ++ ValueString (Filter.ID filter) ++ "/"
      else
        "https://" ++ host d ++ "/api/organizations/" in
    httpReq <- check (NewRequest url_error MethodGet url None)
                     "Error creating request" ;;
    let httpReq := Header_Set httpReq "Authorization" ("Bearer " ++ token d) in
    res <- Do d httpReq ;;
    httpResp <- check res "Error making HTTP request" ;;
    if negb (Z.eqb (Response.StatusCode httpResp) 200) then
      AddError "Unexpected HTTP status code"
               ("Expected 200, got: " ++ Itoa (Response.StatusCode httpResp)) ;;
      Return
    else
      body <- check (Response.Body httpResp) "Error reading response body" ;;
      if negb (IsNull (Filter.ID filter)) then
        apiResp <- check (json_Unmarshal body) "Error parsing response" ;;
        State_Set (mapOrganizationToModel apiResp)
      else
        apiRespList <- check (json_Unmarshal body) "Error parsing response" ;;
        match find apiRespList (ValueString (Filter.Name filter)) with
        | Some org => State_Set (mapOrganizationToModel org)
        | None =>
            AddError "Organization not found"
                     ("No organization with name '"
                      ++ ValueString (Filter.Name filter) ++ "' found") ;;
            Return
        end.
End Methods.
End OrganizationDataSource.

(** ** Workspace data source (datasource_workspace.go; the older copy after
    the Organization resource has the same [Read] over [http://] and without
    the [vcs] attribute) *)

Module WorkspaceDataSourceModel.
Record t : Type := mk {
  ID : types.String;
  OrganizationName : types.String;
  Name : types.String;
  Description : types.String;
  Source : types.String;
  Branch : types.String;
  TerraformVersion : types.String;
  CreatedAt : types.String;
  UpdatedAt : types.String;
  VCS : types.Object
}.
End WorkspaceDataSourceModel.

Module WorkspaceDataSourceFilterModel.
Record t : Type := mk {
  ID : types.String;
  OrganizationName : types.String;
  Name : types.String
}.

(** The [tfsdk] tags of the struct. *)
Definition tfsdk : list string := ["id"; "organization_name"; "name"].
End WorkspaceDataSourceFilterModel.

(** Same body as [vcsToObject]. *)
Definition vcsToObjectDataSource (vcs : option VCSAPIResponse.t) : types.Object :=
  match vcs with
  | None => types.ObjectNull
  | Some vcs =>
      types.ObjectValueMust
        [("id", types.StringValue (VCSAPIResponse.ID vcs));
         ("name", types.StringValue (VCSAPIResponse.Name vcs));
         ("vcs_type", types.StringValue (VCSAPIResponse.VcsType vcs));
         ("url", types.StringValue (VCSAPIResponse.URL vcs));
         ("description", types.StringValue (VCSAPIResponse.Description vcs));
         ("created_at",
          types.StringValue (Format_RFC3339 (VCSAPIResponse.CreatedAt vcs)));
         ("updated_at",
          types.StringValue (Format_RFC3339 (VCSAPIResponse.UpdatedAt vcs)))]
  end.

Module WorkspaceDataSource.
Import types.
Module Model := WorkspaceDataSourceModel.
Module Filter := WorkspaceDataSourceFilterModel.
Module API := WorkspaceAPIResponse.

(** The attributes of [Schema]. *)
Definition Schema : list string :=
  ["id"; "organization_name"; "name"; "description"; "source"; "branch";
   "terraform_version"; "created_at"; "updated_at"; "vcs"].

(** The "Map response to model" block, the same in both branches. *)
Definition mapResponse (filter : Filter.t) (workspace : API.t) : Model.t :=
  Model.mk
    (StringValue (API.ID workspace))
    (Filter.OrganizationName filter)
    (StringValue (API.Name workspace))
    (StringValue (API.Description workspace))
    (StringValue (API.Source workspace))
    (StringValue (API.Branch workspace))
    (StringValue (API.TerraformVersion workspace))
    (StringValue (Format_RFC3339 (API.CreatedAt workspace)))
    (StringValue (Format_RFC3339 (API.UpdatedAt workspace)))
    (vcsToObjectDataSource (API.VCS workspace)).

(** [for _, workspace := range apiRespList { if workspace.Name == name
    { ...; break } }] *)
Fixpoint find (apiRespList : list API.t) (name : string) : option API.t :=
  match apiRespList with
  | [] => None
  | workspace :: rest =>
      if String.eqb (API.Name workspace) name then Some workspace
      else find rest name
  end.

Section Methods.
Variable url_error : string -> option string.
Variable conversion_error : list string -> list string -> string.
Context {decode : Unmarshal API.t} {decodeList : Unmarshal (list API.t)}.
Variable d : InfradotsProvider.

Definition Read (config : Filter.t) : M Model.t unit :=
  filter <- Config_Get conversion_error Schema Filter.tfsdk config ;;
  if andb (IsNull (Filter.ID filter))
          (orb (IsNull (Filter.OrganizationName filter))
               (IsNull (Filter.Name filter))) then
    AddError "Missing required parameter"
             "Either id or both organization_name and name must be specified" ;;
    Return
  else
    url <- (if negb (IsNull (Filter.ID filter)) then
              if IsNull (Filter.OrganizationName filter) then
                AddError "Missing required parameter"
                         "When filtering by ID, organization_name must also be specified" ;;
                Return
              else
                ret ("https://" ++ host d ++ "/api/organizations/"
                     ++ ValueString (Filter.OrganizationName filter) ++ "/workspaces/"
                     ++ ValueString (Filter.ID filter) ++ "/")
            else
              ret ("https://" ++ host d ++ "/api/organizations/"
                   ++ ValueString (Filter.OrganizationName filter) ++ "/workspaces/")) ;;
    httpReq <- check (NewRequest url_error MethodGet url None)
                     "Error creating request" ;;
    let httpReq := Header_Set httpReq "Authorization" ("Bearer " ++ token d) in
    res <- Do d httpReq ;;
    httpResp <- check res "Error making HTTP request" ;;
    if negb (Z.eqb (Response.StatusCode httpResp) 200) then
      AddError "Unexpected HTTP status code"
               ("Expected 200, got: " ++ Itoa (Response.StatusCode httpResp)) ;;
      Return
    else
      body <- check (Response.Body httpResp) "Error reading response body" ;;
      if negb (IsNull (Filter.ID filter)) then
        apiResp <- check (json_Unmarshal body) "Error parsing response" ;;
        State_Set (mapResponse filter apiResp)
      else
        apiRespList <- check (json_Unmarshal body) "Error parsing response" ;;
        match find apiRespList (ValueString (Filter.Name filter)) with
        | Some workspace => State_Set (mapResponse filter workspace)
        | None =>
            AddError "Workspace not found"
                     ("No workspace with name '"
                      ++ ValueString (Filter.Name filter)
                      ++ "' found in organization '"
                      ++ ValueString (Filter.OrganizationName filter) ++ "'") ;;
            Return
        end.
End Methods.
End WorkspaceDataSource.

(** ** VCS data source *)

Module VCSDataSourceModel.
Record t : Type := mk {
  ID : types.String;
  OrganizationName : types.String;
  Name : types.String;
  VcsType : types.String;
  URL : types.String;
  ClientId : types.String;
  Description : types.String;
  CreatedAt : types.String;
  UpdatedAt : types.String
}.
End VCSDataSourceModel.

Module VCSDataSourceFilterModel.
Record t : Type := mk {
  ID : types.String;
  OrganizationName : types.String;
  Name : types.String
}.

(** The [tfsdk] tags of the struct. *)
Definition tfsdk : list string := ["id"; "organization_name"; "name"].
End VCSDataSourceFilterModel.

Module VCSDataSource.
Import types.
Module Model := VCSDataSourceModel.
Module Filter := VCSDataSourceFilterModel.
Module API := VCSAPIResponse.

(** The attributes of [Schema]. *)
Definition Schema : list string :=
  ["id"; "organization_name"; "name"; "vcs_type"; "url"; "client_id";
   "description"; "created_at"; "updated_at"].

(** The "Map response to model" block, the same in both branches. *)
Definition mapResponse (filter : Filter.t) (vcs : API.t) : Model.t :=
  Model.mk
    (StringValue (API.ID vcs))
    (Filter.OrganizationName filter)
    (StringValue (API.Name vcs))
    (StringValue (API.VcsType vcs))
    (StringValue (API.URL vcs))
    (StringValue (API.ClientId vcs))
    (StringValue (API.Description vcs))
    (StringValue (Format_RFC3339 (API.CreatedAt vcs)))
    (StringValue (Format_RFC3339 (API.UpdatedAt vcs))).

(** [for _, vcs := range apiRespList { if vcs.Name == name { ...; break } }] *)
Fixpoint find (apiRespList : list API.t) (name : string) : option API.t :=
  match apiRespList with
  | [] => None
  | vcs :: rest =>
      if String.eqb (API.Name vcs) name then Some vcs else find rest name
  end.

Section Methods.
Variable url_error : string -> option string.
Variable conversion_error : list string -> list string -> string.
Context {decode : Unmarshal API.t} {decodeList : Unmarshal (list API.t)}.
Variable d : InfradotsProvider.

Definition Read (config : Filter.t) : M Model.t unit :=
  filter <- Config_Get conversion_error Schema Filter.tfsdk config ;;
  if andb (IsNull (Filter.ID filter))
          (orb (IsNull (Filter.OrganizationName filter))
               (IsNull (Filter.Name filter))) then
    AddError "Missing required parameter"
             "Either id or both organization_name and name must be specified" ;;
    Return
  else
    url <- (if negb (IsNull (Filter.ID filter)) then
              if IsNull (Filter.OrganizationName filter) then
                AddError "Missing required parameter"
                         "When filtering by ID, organization_name must also be specified" ;;
                Return
              else
                ret ("https://" ++ host d ++ "/api/organizations/"
                     ++ ValueString (Filter.OrganizationName filter) ++ "/vcs/"
                     ++ ValueString (Filter.ID filter) ++ "/")
            else
              ret ("https://" ++ host d ++ "/api/organizations/"
                   ++ ValueString (Filter.OrganizationName filter) ++ "/vcs/")) ;;
    httpReq <- check (NewRequest url_error MethodGet url None)
                     "Error creating request" ;;
    let httpReq := Header_Set httpReq "Authorization" ("Bearer " ++ token d) in
    res <- Do d httpReq ;;
    httpResp <- check res "Error making HTTP request" ;;
    if negb (Z.eqb (Response.StatusCode httpResp) 200) then
      AddError "Unexpected HTTP status code"
               ("Expected 200, got: " ++ Itoa (Response.StatusCode httpResp)) ;;
      Return
    else
      body <- check (Response.Body httpResp) "Error reading response body" ;;
      if negb (IsNull (Filter.ID filter)) then
        apiResp <- check (json_Unmarshal body) "Error parsing response" ;;
        State_Set (mapResponse filter apiResp)
      else
        apiRespList <- check (json_Unmarshal body) "Error parsing response" ;;
        match find apiRespList (ValueString (Filter.Name filter)) with
        | Some vcs => State_Set (mapResponse filter vcs)
        | None =>
            AddError "VCS connection not found"
                     ("No VCS connection with name '"
                      ++ ValueString (Filter.Name filter)
                      ++ "' found in organization '"
                      ++ ValueString (Filter.OrganizationName filter) ++ "'") ;;
            Return
        end.
End Methods.
End VCSDataSource.

(** ** The four resource adapters, by name *)

Module Adapter.

Inductive t : Type := organization | workspace | variable | vcs.

Definition Model (a : t) : Type :=
  match a with
  | organization => OrganizationResourceModel.t
  | workspace => WorkspaceResourceModel.t
  | variable => VariableResourceModel.t
  | vcs => VCSResourceModel.t
  end.

(** The record an adapter decodes a response body into. *)
Definition Response (a : t) : Type :=
  match a with
  | organization => OrganizationAPIResponse.t
  | workspace => WorkspaceAPIResponse.t
  | variable => VariableAPIResponse.t
  | vcs => VCSAPIResponse.t
  end.




(** The state [Create] sets from the plan and the decoded response. *)
Definition created (a : t) : Model a -> Response a -> Model a :=
  match a with
  | organization => fun plan organization =>
      OrganizationResourceModel.mk
        (types.StringValue (OrganizationAPIResponse.ID organization))
        (OrganizationResourceModel.Name plan)
        (types.StringValue
           (Format_RFC3339 (OrganizationAPIResponse.CreatedAt organization)))
        (types.StringValue
           (Format_RFC3339 (OrganizationAPIResponse.UpdatedAt organization)))
        (types.StringValue
           (strings_ToLower (OrganizationAPIResponse.ExecutionMode organization)))
        (types.BoolValue (OrganizationAPIResponse.AgentsEnabled organization))
  | workspace => WorkspaceResource.fromResponse
  | variable => VariableResource.fromResponse
  | vcs => VCSResource.fromResponse
  end.

(** The state [Read] sets from the prior state and the decoded response. *)
Definition refreshed (a : t) : Model a -> Response a -> Model a :=
  match a with
  | organization => fun _ organization =>
      OrganizationResourceModel.mk
        (types.StringValue (OrganizationAPIResponse.ID organization))
        (types.StringValue (OrganizationAPIResponse.Name organization))
        (types.StringValue
           (Format_RFC3339 (OrganizationAPIResponse.CreatedAt organization)))
        (types.StringValue
           (Format_RFC3339 (OrganizationAPIResponse.UpdatedAt organization)))
        (types.StringValue (OrganizationAPIResponse.ExecutionMode organization))
        (types.BoolValue (OrganizationAPIResponse.AgentsEnabled organization))
  | workspace => WorkspaceResource.fromResponse
  | variable => VariableResource.fromResponse
  | vcs => VCSResource.fromResponse
  end.

Section Methods.
Variable url_error : string -> option string.
Context {decodeOrganization : Unmarshal OrganizationAPIResponse.t}.
Context {decodeWorkspace : Unmarshal WorkspaceAPIResponse.t}.
Context {decodeWorkspaces : Unmarshal (list WorkspaceAPIResponse.t)}.
Context {decodeVariable : Unmarshal VariableAPIResponse.t}.
Context {decodeVCS : Unmarshal VCSAPIResponse.t}.
Context {decodeVCSList : Unmarshal (list VCSAPIResponse.t)}.
Variable r : InfradotsProvider.

Definition decode (a : t) : Unmarshal (Response a) :=
  match a with
  | organization => decodeOrganization
  | workspace => decodeWorkspace
  | variable => decodeVariable
  | vcs => decodeVCS
  end.

Definition Create (a : t) : Model a -> M (Model a) unit :=
  match a with
  | organization => OrganizationResource.Create url_error r
  | workspace => WorkspaceResource.Create url_error r
  | variable => VariableResource.Create url_error r
  | vcs => VCSResource.Create url_error r
  end.

Definition Read (a : t) : Model a -> M (Model a) unit :=
  match a with
  | organization => OrganizationResource.Read url_error r
  | workspace => WorkspaceResource.Read url_error r
  | variable => VariableResource.Read url_error r
  | vcs => VCSResource.Read url_error r
  end.

Definition Update (a : t) : Model a -> Model a -> M (Model a) unit :=
  match a with
  | organization => OrganizationResource.Update url_error r
  | workspace => WorkspaceResource.Update url_error r
  | variable => VariableResource.Update url_error r
  | vcs => VCSResource.Update url_error r
  end.

Definition Delete (a : t) : Model a -> M (Model a) unit :=
  match a with
  | organization => OrganizationResource.Delete url_error r
  | workspace => WorkspaceResource.Delete url_error r
  | variable => VariableResource.Delete url_error r
  | vcs => VCSResource.Delete url_error r
  end.

End Methods.
End Adapter.

(** ** What a handler received and sent *)

(** The handler gave the client exactly one request and the client answered
    it with [resp]. *)
Definition received {S} (p : InfradotsProvider) (f : Frame S)
  (resp : Response.t) : Prop :=
  exists req, Sent f = [req] /\ client p req = Ok resp.

(** The body of the one request the handler sent. *)
Definition payload {S} (f : Frame S) : option JObject :=
  match Sent f with
  | [req] => Request.Body req
  | _ => None
  end.


(** ** A round tripper and decoders for examples, after the tests'
    [MockRoundTripper]: every request gets the same status and body, and a
    body decodes to a fixed record. *)

Definition MockRoundTripper (status : Z) (body : string)
  : Request.t -> result Response.t :=
  fun _ => Ok (Response.mk status (Ok body)).

Definition mockProvider (status : Z) (body : string) : InfradotsProvider :=
  {| client := MockRoundTripper status body;
     host := "api.infradots.com";
     token := "test-token" |}.

(** A server answering every request with the same body: 201 to POST, 204
    to DELETE and 200 otherwise. *)
Definition MockServer (body : string) : Request.t -> result Response.t :=
  fun req =>
    Ok (Response.mk
          (match Request.Method_ req with
           | MethodPost => 201
           | MethodDelete => 204
           | _ => 200
           end)
          (Ok body)).

Definition mockServer (body : string) : InfradotsProvider :=
  {| client := MockServer body;
     host := "api.infradots.com";
     token := "test-token" |}.

Definition no_url_error : string -> option string := fun _ => None.

Definition mockDecode {A} (a : A) : Unmarshal A := fun _ => Ok a.

Definition t0 : Time := mkTime "2025-07-07T12:00:00Z".

Definition mockOrganization (execution_mode : string) : OrganizationAPIResponse.t :=
  OrganizationAPIResponse.mk
    "2e240d2c-78e0-4832-abdc-daa33477a238" "test-org" ["test@example.com"]
    t0 t0 ["devops"] execution_mode true.

Definition mockVCS : VCSAPIResponse.t :=
  VCSAPIResponse.mk
    "5f560f5e-0bf3-6543-defg-g1156789012c" "test-vcs" "github"
    "https://github.com" "test-client-id" "Test VCS connection for GitHub"
    t0 t0.

Definition mockWorkspace : WorkspaceAPIResponse.t :=
  WorkspaceAPIResponse.mk
    "3e350e3d-89f1-4321-bcde-eff44588b349" "test-workspace" "Test workspace"
    "https://github.com/test/repo" "main" "1.5.0" t0 t0 None.

(** A variable whose [value] the response omits: it decodes to the empty
    string. *)
Definition mockVariable : VariableAPIResponse.t :=
  VariableAPIResponse.mk
    "4f450f4d-9af2-5432-cdef-f0045678901b" "test-variable" ""
    "Test variable for Terraform" "terraform" true false t0 t0.

Definition organizationState (execution_mode : string) (agents_enabled : bool)
  : OrganizationResourceModel.t :=
  OrganizationResourceModel.mk
    (types.StringValue "2e240d2c-78e0-4832-abdc-daa33477a238")
    (types.StringValue "test-org")
    (types.StringValue "2025-07-07T12:00:00Z")
    (types.StringValue "2025-07-07T12:00:00Z")
    (types.StringValue execution_mode)
    (types.BoolValue agents_enabled).

Definition vcsState : VCSResourceModel.t :=
  VCSResourceModel.mk
    (types.StringValue "5f560f5e-0bf3-6543-defg-g1156789012c")
    (types.StringValue "test-org")
    (types.StringValue "old-name")
    (types.StringValue "gitlab")
    (types.StringValue "https://gitlab.com")
    (types.StringValue "old-client-id")
    (types.StringValue "test-client-secret")
    (types.StringValue "old description")
    (types.StringValue "2025-07-01T00:00:00Z")
    (types.StringValue "2025-07-01T00:00:00Z").

Definition variableState : VariableResourceModel.t :=
  VariableResourceModel.mk
    (types.StringValue "4f450f4d-9af2-5432-cdef-f0045678901b")
    (types.StringValue "test-org")
    (types.StringValue "test-variable")
    (types.StringValue "s3cret")
    (types.StringValue "Test variable for Terraform")
    (types.StringValue "terraform")
    (types.BoolValue true)
    (types.BoolValue false)
    (types.StringValue "2025-07-07T12:00:00Z")
    (types.StringValue "2025-07-07T12:00:00Z").

Definition workspaceState (description : string) : WorkspaceResourceModel.t :=
  WorkspaceResourceModel.mk
    (types.StringValue "3e350e3d-89f1-4321-bcde-eff44588b349")
    (types.StringValue "test-org")
    (types.StringValue "test-workspace")
    (types.StringValue description)
    (types.StringValue "https://github.com/test/repo")
    (types.StringValue "main")
    (types.StringValue "1.5.0")
    (types.StringValue "2025-07-07T12:00:00Z")
    (types.StringValue "2025-07-07T12:00:00Z")
    types.StringNull
    types.ObjectNull.

(** The handlers over the example decoders. *)
Definition mockCreate (mode : string) (p : InfradotsProvider) (a : Adapter.t)
  : Adapter.Model a -> M (Adapter.Model a) unit :=
  @Adapter.Create no_url_error (mockDecode (mockOrganization mode))
    (mockDecode mockWorkspace) (mockDecode mockVariable) (mockDecode mockVCS)
    p a.

Definition mockRead (mode : string) (p : InfradotsProvider) (a : Adapter.t)
  : Adapter.Model a -> M (Adapter.Model a) unit :=
  @Adapter.Read no_url_error (mockDecode (mockOrganization mode))
    (mockDecode mockWorkspace) (mockDecode mockVariable) (mockDecode mockVCS)
    p a.

Definition mockUpdate (p : InfradotsProvider) (a : Adapter.t)
  : Adapter.Model a -> Adapter.Model a -> M (Adapter.Model a) unit :=
  @Adapter.Update no_url_error (mockDecode (mockOrganization "remote"))
    (mockDecode mockWorkspace) (mockDecode mockVariable) (mockDecode mockVCS)
    p a.

(** A variable whose [sensitive] the plan turns off. *)
Definition variablePlan : VariableResourceModel.t :=
  VariableResourceModel.mk
    (types.StringValue "4f450f4d-9af2-5432-cdef-f0045678901b")
    (types.StringValue "test-org")
    (types.StringValue "test-variable")
    (types.StringValue "s3cret")
    (types.StringValue "Test variable for Terraform")
    (types.StringValue "terraform")
    (types.BoolValue false)
    (types.BoolValue false)
    (types.StringValue "2025-07-07T12:00:00Z")
    (types.StringValue "2025-07-07T12:00:00Z").

(** The plan of the organization of the tests, before [Create]. *)
Definition organizationPlan : OrganizationResourceModel.t :=
  OrganizationResourceModel.mk
    types.StringUnknown
    (types.StringValue "test-org")
    types.StringUnknown
    types.StringUnknown
    (types.StringValue "remote")
    (types.BoolValue true).

(** The VCS state with a new name and the description removed. *)
Definition vcsPlan : VCSResourceModel.t :=
  VCSResourceModel.mk
    (types.StringValue "5f560f5e-0bf3-6543-defg-g1156789012c")
    (types.StringValue "test-org")
    (types.StringValue "new-name")
    (types.StringValue "gitlab")
    (types.StringValue "https://gitlab.com")
    (types.StringValue "old-client-id")
    (types.StringValue "test-client-secret")
    (types.StringValue "")
    (types.StringValue "2025-07-01T00:00:00Z")
    (types.StringValue "2025-07-01T00:00:00Z").

(** ** The operations of a resource adapter *)

Module Operation.

(** A call of one of the four handlers with its arguments. *)
Inductive t (a : Adapter.t) : Type :=
| Create (plan : Adapter.Model a)
| Read (state : Adapter.Model a)
| Update (plan state : Adapter.Model a)
| Delete (state : Adapter.Model a).
Arguments Create a plan : clear implicits.
Arguments Read a state : clear implicits.
Arguments Update a plan state : clear implicits.
Arguments Delete a state : clear implicits.

(** The response state the framework hands the handler: nothing for
    [Create], the prior state otherwise. *)
Definition prior (a : Adapter.t) (op : t a) : option (Adapter.Model a) :=
  match op with
  | Create _ _ => None
  | Read _ state => Some state
  | Update _ _ state => Some state
  | Delete _ state => Some state
  end.

(** The method of the handler's [http.NewRequest]. *)
Definition method (a : Adapter.t) (op : t a) : Method :=
  match op with
  | Create _ _ => MethodPost
  | Read _ _ => MethodGet
  | Update _ _ _ => MethodPatch
  | Delete _ _ => MethodDelete
  end.

(** The status after which the handler decodes the body, if it decodes. *)
Definition decodes_after (a : Adapter.t) (op : t a) : option Z :=
  match op with
  | Create _ _ => Some 201%Z
  | Read _ _ => Some 200%Z
  | Update _ _ _ => Some 200%Z
  | Delete _ _ => None
  end.

Section Methods.
Variable url_error : string -> option string.
Context {decodeOrganization : Unmarshal OrganizationAPIResponse.t}.
Context {decodeWorkspace : Unmarshal WorkspaceAPIResponse.t}.
Context {decodeVariable : Unmarshal VariableAPIResponse.t}.
Context {decodeVCS : Unmarshal VCSAPIResponse.t}.
Variable r : InfradotsProvider.

Definition handler (a : Adapter.t) (op : t a) : M (Adapter.Model a) unit :=
  match op with
  | Create _ plan => Adapter.Create url_error r a plan
  | Read _ state => Adapter.Read url_error r a state
  | Update _ plan state => Adapter.Update url_error r a plan state
  | Delete _ state => Adapter.Delete url_error r a state
  end.

Definition frame (a : Adapter.t) (op : t a) : Frame (Adapter.Model a) :=
  run (handler op) (prior op).

End Methods.
End Operation.

(** The handler gave the client exactly one request and the client
    answered it with the transport error [msg]. *)
Definition failed {S} (p : InfradotsProvider) (f : Frame S) (msg : string)
  : Prop :=
  exists req, Sent f = [req] /\ client p req = Err msg.

(** The URL of the one request the handler sent. *)
Definition url_of {S} (f : Frame S) : option string :=
  match Sent f with
  | [req] => Some (Request.URL req)
  | _ => None
  end.

(** The id a model addresses its record by. *)
Definition model_ID (a : Adapter.t) : Adapter.Model a -> types.String :=
  match a with
  | Adapter.organization => OrganizationResourceModel.ID
  | Adapter.workspace => WorkspaceResourceModel.ID
  | Adapter.variable => VariableResourceModel.ID
  | Adapter.vcs => VCSResourceModel.ID
  end.

(** The organization a model is scoped under, for the adapters that have
    one. *)
Definition model_OrganizationName (a : Adapter.t)
  : Adapter.Model a -> option types.String :=
  match a with
  | Adapter.organization => fun _ => None
  | Adapter.workspace => fun m => Some (WorkspaceResourceModel.OrganizationName m)
  | Adapter.variable => fun m => Some (VariableResourceModel.OrganizationName m)
  | Adapter.vcs => fun m => Some (VCSResourceModel.OrganizationName m)
  end.

(** A workspace model with another [vcs_id]. *)
Definition with_VcsId (v : types.String) (m : WorkspaceResourceModel.t)
  : WorkspaceResourceModel.t :=
  WorkspaceResourceModel.mk
    (WorkspaceResourceModel.ID m)
    (WorkspaceResourceModel.OrganizationName m)
    (WorkspaceResourceModel.Name m)
    (WorkspaceResourceModel.Description m)
    (WorkspaceResourceModel.Source m)
    (WorkspaceResourceModel.Branch m)
    (WorkspaceResourceModel.TerraformVersion m)
    (WorkspaceResourceModel.CreatedAt m)
    (WorkspaceResourceModel.UpdatedAt m)
    v
    (WorkspaceResourceModel.VCS m).

(** A member of a create request: always there, or under [omitempty] there
    for a non-empty string, or for a true boolean. *)
Inductive CreateField : Type :=
| Always (key : string) (v : types.String)
| IfNonEmpty (key : string) (v : types.String)
| IfTrue (key : string) (v : types.Bool).

Definition create_key (f : CreateField) : string :=
  match f with
  | Always key _ => key
  | IfNonEmpty key _ => key
  | IfTrue key _ => key
  end.

Definition create_present (f : CreateField) : bool :=
  match f with
  | Always _ _ => true
  | IfNonEmpty _ v => negb (String.eqb (types.ValueString v) EmptyString)
  | IfTrue _ v => types.ValueBool v
  end.

(** The members of the request [Create] marshals: [OrganizationUpdateRequest]
    (which the Organization [Create] reuses), [WorkspaceCreateRequest],
    [VariableCreateRequest] and [VCSCreateRequest], with the plan attribute
    each is filled from. *)
Definition create_fields (a : Adapter.t) : Adapter.Model a -> list CreateField :=
  match a with
  | Adapter.organization => fun plan =>
      [IfNonEmpty "name" (OrganizationResourceModel.Name plan);
       IfNonEmpty "execution_mode" (OrganizationResourceModel.ExecutionMode plan);
       IfTrue "agents_enabled" (OrganizationResourceModel.AgentsEnabled plan)]
  | Adapter.workspace => fun plan =>
      [Always "name" (WorkspaceResourceModel.Name plan);
       IfNonEmpty "description" (WorkspaceResourceModel.Description plan);
       Always "source" (WorkspaceResourceModel.Source plan);
       Always "branch" (WorkspaceResourceModel.Branch plan);
       Always "terraform_version" (WorkspaceResourceModel.TerraformVersion plan)]
  | Adapter.variable => fun plan =>
      [Always "key" (VariableResourceModel.Key plan);
       Always "value" (VariableResourceModel.Value plan);
       IfNonEmpty "description" (VariableResourceModel.Description plan);
       IfNonEmpty "category" (VariableResourceModel.Category plan);
       IfTrue "sensitive" (VariableResourceModel.Sensitive plan);
       IfTrue "hcl" (VariableResourceModel.HCL plan)]
  | Adapter.vcs => fun plan =>
      [Always "name" (VCSResourceModel.Name plan);
       Always "vcsType" (VCSResourceModel.VcsType plan);
       Always "endpoint" (VCSResourceModel.URL plan);
       Always "clientId" (VCSResourceModel.ClientId plan);
       Always "clientSecret" (VCSResourceModel.ClientSecret plan);
       IfNonEmpty "description" (VCSResourceModel.Description plan)]
  end.

(** ** More of the examples' environment *)

(** A client that cannot reach the server. *)
Definition mockDown (msg : string) : InfradotsProvider :=
  {| client := fun _ => Err msg;
     host := "api.infradots.com";
     token := "test-token" |}.

(** Every URL fails to parse. *)
Definition bad_url_error : string -> option string :=
  fun _ => Some "invalid URL".

(** A decoder that rejects every body. *)
Definition mockReject {A} (msg : string) : Unmarshal A := fun _ => Err msg.

Definition mockFrame (p : InfradotsProvider) (a : Adapter.t)
  (op : Operation.t a) : Frame (Adapter.Model a) :=
  @Operation.frame no_url_error (mockDecode (mockOrganization "remote"))
    (mockDecode mockWorkspace) (mockDecode mockVariable) (mockDecode mockVCS)
    p a op.

(** The workspace of the tests under a new name. *)
Definition workspaceRenamed : WorkspaceResourceModel.t :=
  WorkspaceResourceModel.mk
    (types.StringValue "3e350e3d-89f1-4321-bcde-eff44588b349")
    (types.StringValue "test-org")
    (types.StringValue "renamed-workspace")
    (types.StringValue "Test workspace")
    (types.StringValue "https://github.com/test/repo")
    (types.StringValue "main")
    (types.StringValue "1.5.0")
    (types.StringValue "2025-07-07T12:00:00Z")
    (types.StringValue "2025-07-07T12:00:00Z")
    types.StringNull
    types.ObjectNull.

(** A plan for an organization without agents. *)
Definition organizationPlanDisabled : OrganizationResourceModel.t :=
  OrganizationResourceModel.mk
    types.StringUnknown
    (types.StringValue "test-org")
    types.StringUnknown
    types.StringUnknown
    (types.StringValue "remote")
    (types.BoolValue false).

(** The workspace of the tests, linked to the VCS connection of the tests. *)
Definition mockWorkspaceWithVCS : WorkspaceAPIResponse.t :=
  WorkspaceAPIResponse.mk
    "3e350e3d-89f1-4321-bcde-eff44588b349" "test-workspace" "Test workspace"
    "https://github.com/test/repo" "main" "1.5.0" t0 t0 (Some mockVCS).

(** A detail for the reflection's diagnostic. *)
Definition mockConversionError : list string -> list string -> string :=
  fun _ _ => "mismatch between struct and object".

Unset Implicit Arguments.

(** * Properties *)

(** Unfolds the handler steps and reduces what the frame determines. *)
Ltac hred :=
  cbn beta iota zeta delta
    [fst snd State Diagnostics Sent app HasError negb andb orb payload
     Response.StatusCode Response.Body Header_Set Request.Body] in *.

Ltac hunfold :=
  unfold run, check, NewRequest, Do, AddError, RemoveResource, State_Set,
    bind, ret, Return.

(** One case split on what the environment decides: the URL, the client's
    answer, the body, the decoder, a status test. *)
Ltac hcase :=
  match goal with
  | |- context [match ?f ?u with Some _ => _ | None => _ end] =>
      destruct (f u) eqn:?
  | |- context [match client ?r ?q with Ok _ => _ | Err _ => _ end] =>
      destruct (client r q) eqn:?
  | |- context [Z.eqb ?a ?b] =>
      destruct (Z.eqb a b) eqn:?
  | |- context [match Response.Body ?x with Ok _ => _ | Err _ => _ end] =>
      destruct (Response.Body x) eqn:?
  | |- context [match json_Unmarshal ?b with Ok _ => _ | Err _ => _ end] =>
      destruct (json_Unmarshal b) eqn:?
  end.

Ltac hrun := hunfold; hred; repeat (hcase; hred).

(** With [Sent f = [req] -> goal] as goal and [Hc : client r req = Ok resp]:
    identifies [req] with the request of the handler and [resp] with the
    answer the case split named. *)
Ltac hreceived Hc :=
  let Hs := fresh "Hs" in
  intros Hs; try discriminate Hs; injection Hs as <-;
  match goal with
  | H : client _ _ = Err _ |- _ =>
      exfalso; generalize (eq_trans (eq_sym H) Hc); discriminate
  | H : client _ _ = Ok ?a |- _ =>
      tryif constr_eq H Hc then fail else
        (let E := fresh "E" in
         pose proof (eq_trans (eq_sym H) Hc) as E; injection E as ->; clear H)
  end.

(** Turns the status tests into (in)equalities and closes the branches
    the hypotheses exclude. *)
Ltac hstatus :=
  repeat match goal with
         | H : Z.eqb _ _ = true |- _ => apply Z.eqb_eq in H
         | H : Z.eqb _ _ = false |- _ => apply Z.eqb_neq in H
         end;
  try congruence.

Ltac unfold_adapters :=
  unfold OrganizationResource.Create, OrganizationResource.Read,
    OrganizationResource.Update, OrganizationResource.Delete,
    WorkspaceResource.Create, WorkspaceResource.Read,
    WorkspaceResource.Update, WorkspaceResource.Delete,
    VariableResource.Create, VariableResource.Read,
    VariableResource.Update, VariableResource.Delete,
    VCSResource.Create, VCSResource.Read,
    VCSResource.Update, VCSResource.Delete.

(** ** strings.Split *)

Lemma strings_Split_length (s : string) (sep : ascii) :
  length (strings_Split s sep) = S (strings_Count s sep).
Proof.
  induction s as [|c rest IH]; cbn [strings_Split strings_Count].
  - reflexivity.
  - destruct (Ascii.eqb c sep).
    + cbn [length]. rewrite IH. reflexivity.
    + destruct (strings_Split rest sep) as [|hd tl]; cbn [length] in *.
      * discriminate IH.
      * exact IH.
Qed.

Lemma strings_Split_no_sep (s : string) (sep : ascii) :
  strings_Count s sep = 0 -> strings_Split s sep = [s].
Proof.
  induction s as [|c rest IH]; cbn [strings_Split strings_Count].
  - reflexivity.
  - destruct (Ascii.eqb c sep); [discriminate|].
    cbn [Nat.add]. intros H. rewrite (IH H). reflexivity.
Qed.

Lemma strings_Split_two (a b : string) (sep : ascii) :
  strings_Count a sep = 0 -> strings_Count b sep = 0 ->
  strings_Split (a ++ String sep b) sep = [a; b].
Proof.
  intros Ha Hb.
  induction a as [|c rest IH]; cbn [append strings_Split].
  - rewrite Ascii.eqb_refl, (strings_Split_no_sep _ _ Hb). reflexivity.
  - cbn [strings_Count] in Ha.
    destruct (Ascii.eqb c sep); [discriminate|].
    rewrite (IH Ha). reflexivity.
Qed.

(** ** Members of a marshalled request *)

Lemma has_member_app (key : string) (o1 o2 : JObject) :
  has_member key (o1 ++ o2)%list = has_member key o1 || has_member key o2.
Proof.
  unfold has_member.
  induction o1 as [|[k v] rest IH]; cbn [app member_of].
  - reflexivity.
  - destruct (String.eqb k key); [reflexivity | exact IH].
Qed.

Lemma has_member_omitempty_string (key k s : string) :
  has_member key (omitempty_string k s)
  = String.eqb k key && negb (String.eqb s EmptyString).
Proof.
  unfold has_member, omitempty_string.
  destruct (String.eqb s EmptyString); cbn [member_of negb].
  - rewrite andb_false_r. reflexivity.
  - destruct (String.eqb k key); reflexivity.
Qed.

Lemma has_member_omitempty_bool (key k : string) (b : bool) :
  has_member key (omitempty_bool k b) = String.eqb k key && b.
Proof.
  unfold has_member, omitempty_bool.
  destruct b; cbn [member_of].
  - destruct (String.eqb k key); reflexivity.
  - rewrite andb_false_r. reflexivity.
Qed.






Ltac keys :=
  cbn [String.eqb Ascii.eqb Bool.eqb andb orb];
  rewrite ?orb_false_r, ?andb_false_r.


Section Properties.
Variable url_error : string -> option string.
Variable conversion_error : list string -> list string -> string.
Context {decodeOrganization : Unmarshal OrganizationAPIResponse.t}.
Context {decodeOrganizations : Unmarshal (list OrganizationAPIResponse.t)}.
Context {decodeWorkspace : Unmarshal WorkspaceAPIResponse.t}.
Context {decodeWorkspaces : Unmarshal (list WorkspaceAPIResponse.t)}.
Context {decodeVariable : Unmarshal VariableAPIResponse.t}.
Context {decodeVCS : Unmarshal VCSAPIResponse.t}.
Context {decodeVCSList : Unmarshal (list VCSAPIResponse.t)}.
Variable r : InfradotsProvider.

(** ** Status codes of Read and Delete *)



(** ** What Read writes to the state *)

(** C2, as the handlers have it. A successful [Read] of a VCS connection
    leaves [client_secret] (and the organization name, which no response
    carries) as it was and overwrites every other field from the response.
    A successful [Read] of a variable overwrites [value] as well: the state
    gets the response's value, the empty string when the response has
    none. *)
Theorem Read_keeps_client_secret_overwrites_value :
  (forall (state : VCSResourceModel.t) (resp : Response.t) (body : string)
          (rec : VCSAPIResponse.t),
      received r (run (VCSResource.Read url_error r state) (Some state)) resp ->
      Response.StatusCode resp = 200%Z ->
      Response.Body resp = Ok body ->
      json_Unmarshal body = Ok rec ->
      Diagnostics (run (VCSResource.Read url_error r state) (Some state)) = []
      /\ exists data,
          State (run (VCSResource.Read url_error r state) (Some state)) = Some data
          /\ VCSResourceModel.ClientSecret data = VCSResourceModel.ClientSecret state
          /\ VCSResourceModel.OrganizationName data
             = VCSResourceModel.OrganizationName state
          /\ VCSResourceModel.ID data = types.StringValue (VCSAPIResponse.ID rec)
          /\ VCSResourceModel.Name data = types.StringValue (VCSAPIResponse.Name rec)
          /\ VCSResourceModel.VcsType data
             = types.StringValue (VCSAPIResponse.VcsType rec)
          /\ VCSResourceModel.URL data = types.StringValue (VCSAPIResponse.URL rec)
          /\ VCSResourceModel.ClientId data
             = types.StringValue (VCSAPIResponse.ClientId rec)
          /\ VCSResourceModel.Description data
             = types.StringValue (VCSAPIResponse.Description rec)
          /\ VCSResourceModel.CreatedAt data
             = types.StringValue (Format_RFC3339 (VCSAPIResponse.CreatedAt rec))
          /\ VCSResourceModel.UpdatedAt data
             = types.StringValue (Format_RFC3339 (VCSAPIResponse.UpdatedAt rec)))
  /\ (forall (state : VariableResourceModel.t) (resp : Response.t)
             (body : string) (rec : VariableAPIResponse.t),
      received r (run (VariableResource.Read url_error r state) (Some state)) resp ->
      Response.StatusCode resp = 200%Z ->
      Response.Body resp = Ok body ->
      json_Unmarshal body = Ok rec ->
      Diagnostics (run (VariableResource.Read url_error r state) (Some state)) = []
      /\ exists data,
          State (run (VariableResource.Read url_error r state) (Some state))
          = Some data
          /\ VariableResourceModel.Value data
             = types.StringValue (VariableAPIResponse.Value rec)
          /\ VariableResourceModel.OrganizationName data
             = VariableResourceModel.OrganizationName state
          /\ VariableResourceModel.ID data
             = types.StringValue (VariableAPIResponse.ID rec)
          /\ VariableResourceModel.Key data
             = types.StringValue (VariableAPIResponse.Key rec)
          /\ VariableResourceModel.Description data
             = types.StringValue (VariableAPIResponse.Description rec)
          /\ VariableResourceModel.Category data
             = types.StringValue (VariableAPIResponse.Category rec)
          /\ VariableResourceModel.Sensitive data
             = types.BoolValue (VariableAPIResponse.Sensitive rec)
          /\ VariableResourceModel.HCL data
             = types.BoolValue (VariableAPIResponse.HCL rec)
          /\ VariableResourceModel.CreatedAt data
             = types.StringValue (Format_RFC3339 (VariableAPIResponse.CreatedAt rec))
          /\ VariableResourceModel.UpdatedAt data
             = types.StringValue (Format_RFC3339 (VariableAPIResponse.UpdatedAt rec))).
Proof.
  split; intros state resp body rec [req [Hs Hc]] H200 Hb Hj; revert Hs;
    unfold_adapters; hrun; hreceived Hc; hstatus;
    (split; [reflexivity|]);
    eexists; (split; [reflexivity|]);
    unfold VCSResource.fromResponse, VariableResource.fromResponse;
    cbn [VCSResourceModel.ClientSecret VCSResourceModel.OrganizationName
         VCSResourceModel.ID VCSResourceModel.Name VCSResourceModel.VcsType
         VCSResourceModel.URL VCSResourceModel.ClientId
         VCSResourceModel.Description VCSResourceModel.CreatedAt
         VCSResourceModel.UpdatedAt
         VariableResourceModel.Value VariableResourceModel.OrganizationName
         VariableResourceModel.ID VariableResourceModel.Key
         VariableResourceModel.Description VariableResourceModel.Category
         VariableResourceModel.Sensitive VariableResourceModel.HCL
         VariableResourceModel.CreatedAt VariableResourceModel.UpdatedAt];
    repeat split; congruence.
Qed.


(** ** The payload of Update *)


(** ** Import *)

(** C7. An import key whose colon-separated segment count is not 2 makes
    [ImportState] of the Workspace and of the VCS resource add the one error
    "Invalid import ID format", set no state and send no request. *)
Theorem ImportState_rejects_other_segment_counts (ID : string) :
  length (strings_Split ID ":") <> 2 ->
  run (WorkspaceResource.ImportState url_error r ID) None
  = {| State := None;
       Diagnostics :=
         [{| Summary := "Invalid import ID format";
             Detail := "Import ID must be in the format 'organization_name:workspace_name'" |}];
       Sent := [] |}
  /\ run (VCSResource.ImportState url_error r ID) None
     = {| State := None;
          Diagnostics :=
            [{| Summary := "Invalid import ID format";
                Detail := "Import ID must be in the format 'organization_name:vcs_name'" |}];
          Sent := [] |}.
Proof.
  intros Hlen.
  apply Nat.eqb_neq in Hlen.
  unfold WorkspaceResource.ImportState, VCSResource.ImportState.
  cbv zeta. rewrite Hlen. cbn [negb].
  split; reflexivity.
Qed.

(** C10. A successful [ImportState] of a VCS connection, that is a
    two-segment key, a 200 answer whose body decodes to a list and a record
    of that name in the list, adds no diagnostic and sets every field of the
    state from the first matching record, the organization name from the
    key, and leaves [client_secret] null. *)
Theorem VCS_ImportState_leaves_client_secret_null
  (ID organizationName vcsName : string) (resp : Response.t) (body : string)
  (vcsList : list VCSAPIResponse.t) (rec : VCSAPIResponse.t) :
  strings_Split ID ":" = [organizationName; vcsName] ->
  received r (run (VCSResource.ImportState url_error r ID) None) resp ->
  Response.StatusCode resp = 200%Z ->
  Response.Body resp = Ok body ->
  json_Unmarshal body = Ok vcsList ->
  VCSResource.find vcsList vcsName = Some rec ->
  Diagnostics (run (VCSResource.ImportState url_error r ID) None) = []
  /\ State (run (VCSResource.ImportState url_error r ID) None)
     = Some (VCSResourceModel.mk
                 (types.StringValue (VCSAPIResponse.ID rec))
                 (types.StringValue organizationName)
                 (types.StringValue (VCSAPIResponse.Name rec))
                 (types.StringValue (VCSAPIResponse.VcsType rec))
                 (types.StringValue (VCSAPIResponse.URL rec))
                 (types.StringValue (VCSAPIResponse.ClientId rec))
                 types.StringNull
                 (types.StringValue (VCSAPIResponse.Description rec))
                 (types.StringValue (Format_RFC3339 (VCSAPIResponse.CreatedAt rec)))
                 (types.StringValue (Format_RFC3339 (VCSAPIResponse.UpdatedAt rec)))).
Proof.
  intros Hkey [req [Hs Hc]] H200 Hb Hj Hfind. revert Hs.
  unfold VCSResource.ImportState. cbv zeta. rewrite Hkey.
  cbn [length Nat.eqb negb nth].
  hrun; hreceived Hc; hstatus.
  cbn [VCSResourceModel.ClientSecret VCSResource.zero].
  split; [reflexivity|]. repeat f_equal; congruence.
Qed.

Lemma ImportState_id
  (org name : string) (workspaces : list WorkspaceAPIResponse.t)
  (resp : Response.t) (body : string) :
  strings_Count org ":" = 0 -> strings_Count name ":" = 0 ->
  received r (run (WorkspaceResource.ImportState url_error r (org ++ ":" ++ name))
                  None) resp ->
  Response.StatusCode resp = 200%Z ->
  Response.Body resp = Ok body ->
  json_Unmarshal body = Ok workspaces ->
  option_map WorkspaceResourceModel.ID
    (State (run (WorkspaceResource.ImportState url_error r (org ++ ":" ++ name))
                None))
  = option_map (fun w => types.StringValue (WorkspaceAPIResponse.ID w))
      (WorkspaceResource.find workspaces name).
Proof.
  intros Horg Hname [req [Hs Hc]] H200 Hb Hj. revert Hs.
  unfold WorkspaceResource.ImportState. cbv zeta.
  change (org ++ ":" ++ name) with (org ++ String ":" name).
  rewrite (strings_Split_two _ _ _ Horg Hname).
  cbn [length Nat.eqb negb nth].
  hrun; hreceived Hc; hstatus;
    match goal with
    | H : WorkspaceResource.find ?l _ = _ |- _ =>
        replace workspaces with l by congruence; rewrite H; reflexivity
    end.
Qed.

(** C8 fails in the data source. For an organization and a name without
    colons and a list of workspaces, decoded from the 200 answer of the list
    endpoint, whose first record of the name is [w], importing with the key
    "org:name" puts the id of [w] in the state. The data source read by
    that organization and name puts no id in the state: it returns at
    [req.Config.Get], whose struct has the three fields of the filter where
    the schema has ten attributes, and never asks for the list. *)
Theorem Import_resolves_where_data_source_stops
  (org name : string) (workspaces : list WorkspaceAPIResponse.t)
  (w : WorkspaceAPIResponse.t) (resp : Response.t) (body : string) :
  strings_Count org ":" = 0 -> strings_Count name ":" = 0 ->
  received r (run (WorkspaceResource.ImportState url_error r (org ++ ":" ++ name))
                  None) resp ->
  Response.StatusCode resp = 200%Z ->
  Response.Body resp = Ok body ->
  json_Unmarshal body = Ok workspaces ->
  WorkspaceResource.find workspaces name = Some w ->
  option_map WorkspaceResourceModel.ID
    (State (run (WorkspaceResource.ImportState url_error r (org ++ ":" ++ name))
                None))
  = Some (types.StringValue (WorkspaceAPIResponse.ID w))
  /\ run (WorkspaceDataSource.Read url_error conversion_error r
            (WorkspaceDataSourceFilterModel.mk
               types.StringNull (types.StringValue org) (types.StringValue name)))
         None
     = {| State := None;
          Diagnostics :=
            [{| Summary := "Value Conversion Error";
                Detail := conversion_error WorkspaceDataSource.Schema
                            WorkspaceDataSourceFilterModel.tfsdk |}];
          Sent := [] |}.
Proof.
  intros Horg Hname Hr H200 Hb Hj Hfind. split.
  - rewrite (ImportState_id org name workspaces resp body
               Horg Hname Hr H200 Hb Hj).
    rewrite Hfind. reflexivity.
  - reflexivity.
Qed.

(** ** Data sources *)

(** C9 fails in all three data sources. Whatever the configuration holds,
    and so when it has neither an id nor the name filter, [Read] adds the
    one error "Value Conversion Error" of [req.Config.Get], not "Missing
    required parameter": the filter struct has two or three [tfsdk] fields
    where the schema has eight, ten or nine attributes. It sets no state
    and sends no request. *)
Theorem DataSource_Read_stops_at_Config_Get :
  (forall config : OrganizationDataSourceFilterModel.t,
      run (OrganizationDataSource.Read url_error conversion_error r config) None
      = {| State := None;
           Diagnostics :=
             [{| Summary := "Value Conversion Error";
                 Detail := conversion_error OrganizationDataSource.Schema
                             OrganizationDataSourceFilterModel.tfsdk |}];
           Sent := [] |})
  /\ (forall config : WorkspaceDataSourceFilterModel.t,
      run (WorkspaceDataSource.Read url_error conversion_error r config) None
      = {| State := None;
           Diagnostics :=
             [{| Summary := "Value Conversion Error";
                 Detail := conversion_error WorkspaceDataSource.Schema
                             WorkspaceDataSourceFilterModel.tfsdk |}];
           Sent := [] |})
  /\ (forall config : VCSDataSourceFilterModel.t,
      run (VCSDataSource.Read url_error conversion_error r config) None
      = {| State := None;
           Diagnostics :=
             [{| Summary := "Value Conversion Error";
                 Detail := conversion_error VCSDataSource.Schema
                             VCSDataSourceFilterModel.tfsdk |}];
           Sent := [] |}).
Proof.
  split; [|split]; intros config; reflexivity.
Qed.

(** ** Create followed by Read *)

Lemma Create_sets
  (a : Adapter.t) (plan : Adapter.Model a) (resp : Response.t) (body : string)
  (rec : Adapter.Response a) :
  received r (run (Adapter.Create url_error r a plan) None) resp ->
  Response.StatusCode resp = 201%Z ->
  Response.Body resp = Ok body ->
  json_Unmarshal (Unmarshal := Adapter.decode a) body = Ok rec ->
  State (run (Adapter.Create url_error r a plan) None)
  = Some (Adapter.created a plan rec)
  /\ Diagnostics (run (Adapter.Create url_error r a plan) None) = [].
Proof.
  intros [req [Hs Hc]] H201 Hb Hj. revert Hs.
  destruct a;
    cbn [Adapter.Create Adapter.Model Adapter.Response Adapter.decode
         Adapter.created] in *;
    unfold_adapters; hrun; hreceived Hc; hstatus;
    (split; [|reflexivity]); repeat f_equal; congruence.
Qed.

Lemma Read_sets
  (a : Adapter.t) (state : Adapter.Model a) (resp : Response.t) (body : string)
  (rec : Adapter.Response a) :
  received r (run (Adapter.Read url_error r a state) (Some state)) resp ->
  Response.StatusCode resp = 200%Z ->
  Response.Body resp = Ok body ->
  json_Unmarshal (Unmarshal := Adapter.decode a) body = Ok rec ->
  State (run (Adapter.Read url_error r a state) (Some state))
  = Some (Adapter.refreshed a state rec)
  /\ Diagnostics (run (Adapter.Read url_error r a state) (Some state)) = [].
Proof.
  intros [req [Hs Hc]] H200 Hb Hj. revert Hs.
  destruct a;
    cbn [Adapter.Read Adapter.Model Adapter.Response Adapter.decode
         Adapter.refreshed] in *;
    unfold_adapters; hrun; hreceived Hc; hstatus;
    (split; [|reflexivity]); repeat f_equal; congruence.
Qed.

End Properties.

(** For the Workspace, Variable and VCS adapters a [Read] that decodes the
    record [Create] decoded sets the state [Create] set. *)
Lemma refreshed_created
  (a : Adapter.t) (plan : Adapter.Model a) (rec : Adapter.Response a) :
  a <> Adapter.organization ->
  Adapter.refreshed a (Adapter.created a plan rec) rec = Adapter.created a plan rec.
Proof.
  destruct a; intros Ha; [congruence | reflexivity | reflexivity | reflexivity].
Qed.

(** For the Organization adapter the two agree only on a record whose name
    is the plan's and whose execution mode is already in lower case. *)
Lemma Organization_refreshed_created
  (plan : OrganizationResourceModel.t) (rec : OrganizationAPIResponse.t) :
  Adapter.refreshed Adapter.organization
    (Adapter.created Adapter.organization plan rec) rec
  = Adapter.created Adapter.organization plan rec
  <-> (OrganizationResourceModel.Name plan
       = types.StringValue (OrganizationAPIResponse.Name rec)
       /\ strings_ToLower (OrganizationAPIResponse.ExecutionMode rec)
          = OrganizationAPIResponse.ExecutionMode rec).
Proof.
  cbn [Adapter.refreshed Adapter.created]. split.
  - intros H. injection H as Hn He. split; congruence.
  - intros [Hn He]. rewrite Hn, He. reflexivity.
Qed.

(** * The handlers on the tests' records *)

(** ** Delete *)



(** ** Read *)


(** C2 fails as stated: the Variable [Read] of a state whose value is
    "s3cret", answered with a record without a value, sets the value to the
    empty string. *)
Lemma Variable_Read_overwrites_value :
  VariableResourceModel.Value variableState = types.StringValue "s3cret"
  /\ received (mockProvider 200 "{}")
       (run (mockRead "remote" (mockProvider 200 "{}") Adapter.variable variableState)
            (Some variableState))
       (Response.mk 200 (Ok "{}"))
  /\ option_map VariableResourceModel.Value
       (State
          (run (mockRead "remote" (mockProvider 200 "{}") Adapter.variable
                  variableState)
               (Some variableState)))
     = Some (types.StringValue "").
Proof.
  split; [reflexivity|split].
  - eexists. split; reflexivity.
  - reflexivity.
Qed.

(** [Read_keeps_client_secret_overwrites_value] at the VCS and Variable
    states of the tests: the secret stays and the name is replaced; the
    value is replaced. *)
Lemma Read_keeps_client_secret_witness :
  Diagnostics
    (run (@VCSResource.Read no_url_error (mockDecode mockVCS)
            (mockProvider 200 "{}") vcsState)
         (Some vcsState))
  = []
  /\ option_map VCSResourceModel.ClientSecret
       (State
          (run (@VCSResource.Read no_url_error (mockDecode mockVCS)
                  (mockProvider 200 "{}") vcsState)
               (Some vcsState)))
     = Some (types.StringValue "test-client-secret")
  /\ option_map VCSResourceModel.Name
       (State
          (run (@VCSResource.Read no_url_error (mockDecode mockVCS)
                  (mockProvider 200 "{}") vcsState)
               (Some vcsState)))
     = Some (types.StringValue "test-vcs")
  /\ option_map VariableResourceModel.Value
       (State
          (run (@VariableResource.Read no_url_error (mockDecode mockVariable)
                  (mockProvider 200 "{}") variableState)
               (Some variableState)))
     = Some (types.StringValue (VariableAPIResponse.Value mockVariable)).
Proof.
  assert (Hr : received (mockProvider 200 "{}")
                 (run (@VCSResource.Read no_url_error (mockDecode mockVCS)
                         (mockProvider 200 "{}") vcsState)
                      (Some vcsState))
                 (Response.mk 200 (Ok "{}"))).
  { eexists. split; reflexivity. }
  assert (Hr' : received (mockProvider 200 "{}")
                  (run (@VariableResource.Read no_url_error
                          (mockDecode mockVariable) (mockProvider 200 "{}")
                          variableState)
                       (Some variableState))
                  (Response.mk 200 (Ok "{}"))).
  { eexists. split; reflexivity. }
  destruct (proj2 (@Read_keeps_client_secret_overwrites_value no_url_error
                     (mockDecode mockVariable) (mockDecode mockVCS)
                     (mockProvider 200 "{}"))
                  variableState (Response.mk 200 (Ok "{}")) "{}" mockVariable Hr'
                  eq_refl eq_refl eq_refl)
    as [_ [data' [Hst' [Hvalue _]]]].
  destruct (proj1 (@Read_keeps_client_secret_overwrites_value no_url_error
                     (mockDecode mockVariable) (mockDecode mockVCS)
                     (mockProvider 200 "{}"))
                  vcsState (Response.mk 200 (Ok "{}")) "{}" mockVCS Hr
                  eq_refl eq_refl eq_refl)
    as [Hd [data [Hst [Hsecret [_ [_ [Hname _]]]]]]].
  split; [exact Hd|].
  rewrite Hst, Hst'. cbn [option_map]. rewrite Hsecret, Hname, Hvalue.
  repeat split; reflexivity.
Defined.

(** ** Update *)

(** C3 fails on the Organization resource: [agents_enabled] is a [bool]
    with [omitempty], so the PATCH payload for a plan that turns it off is
    the payload for a plan that changes nothing, the empty object. The
    Variable resource, whose [sensitive] is a [*bool], sends the false. *)
Lemma Organization_Update_drops_agents_enabled_false :
  types.Bool_Equal
    (OrganizationResourceModel.AgentsEnabled (organizationState "remote" false))
    (OrganizationResourceModel.AgentsEnabled (organizationState "remote" true))
  = false
  /\ payload
       (run (mockUpdate (mockServer "{}") Adapter.organization
               (organizationState "remote" false)
               (organizationState "remote" true))
            (Some (organizationState "remote" true)))
     = Some []
  /\ payload
       (run (mockUpdate (mockServer "{}") Adapter.organization
               (organizationState "remote" true)
               (organizationState "remote" true))
            (Some (organizationState "remote" true)))
     = Some []
  /\ payload
       (run (mockUpdate (mockServer "{}") Adapter.variable
               variablePlan variableState)
            (Some variableState))
     = Some [("sensitive", JBool false)].
Proof. repeat split; reflexivity. Qed.



(** ** Create followed by Read *)

(** C4 fails on the Organization resource: [Create] lower-cases the
    server's execution mode and [Read] does not. With a server that stores
    "Remote", [Create] sets "remote" and the [Read] of the created record
    sets "Remote". *)
Lemma Organization_Create_then_Read_changes_execution_mode :
  State
    (run (mockCreate "Remote" (mockServer "{}") Adapter.organization
            organizationPlan)
         None)
  = Some (organizationState "remote" true)
  /\ State
       (run (mockRead "Remote" (mockServer "{}") Adapter.organization
               (organizationState "remote" true))
            (Some (organizationState "remote" true)))
     = Some (organizationState "Remote" true)
  /\ organizationState "Remote" true <> organizationState "remote" true.
Proof.
  split; [reflexivity|split; [reflexivity|]].
  intros H. discriminate H.
Qed.

(** ** Import and data sources *)

(** [ImportState_rejects_other_segment_counts] at the four-segment key. *)
Lemma ImportState_rejects_other_segment_counts_witness :
  length (strings_Split "a:b:c:d" ":") = 4
  /\ Sent
       (run (@WorkspaceResource.ImportState no_url_error
               (mockDecode [mockWorkspace]) (mockServer "[]") "a:b:c:d")
            None)
     = []
  /\ HasError
       (run (@VCSResource.ImportState no_url_error
               (mockDecode [mockVCS]) (mockServer "[]") "a:b:c:d")
            None)
     = true.
Proof.
  assert (Hlen : length (strings_Split "a:b:c:d" ":") <> 2).
  { cbn. intros H. discriminate H. }
  destruct (@ImportState_rejects_other_segment_counts no_url_error
              (mockDecode [mockWorkspace]) (mockDecode [mockVCS])
              (mockServer "[]") "a:b:c:d" Hlen)
    as [Hw Hv].
  split; [reflexivity|].
  rewrite Hw, Hv. split; reflexivity.
Defined.

(** The one-segment key of the claim. *)
Example strings_Split_one_segment :
  strings_Split "a" ":" = ["a"]
  /\ strings_Split "test-org:test-workspace" ":" = ["test-org"; "test-workspace"].
Proof. split; reflexivity. Qed.

(** [Import_resolves_where_data_source_stops] at the workspace of the
    tests. *)
Lemma Import_resolves_where_data_source_stops_witness :
  option_map WorkspaceResourceModel.ID
    (State
       (run (@WorkspaceResource.ImportState no_url_error
               (mockDecode [mockWorkspace]) (mockServer "[]")
               "test-org:test-workspace")
            None))
  = Some (types.StringValue "3e350e3d-89f1-4321-bcde-eff44588b349")
  /\ option_map WorkspaceDataSourceModel.ID
       (State
          (run (@WorkspaceDataSource.Read no_url_error mockConversionError
                  (mockDecode mockWorkspace) (mockDecode [mockWorkspace])
                  (mockServer "[]")
                  (WorkspaceDataSourceFilterModel.mk
                     types.StringNull (types.StringValue "test-org")
                     (types.StringValue "test-workspace")))
               None))
     = None.
Proof.
  assert (Hr : received (mockServer "[]")
                 (run (@WorkspaceResource.ImportState no_url_error
                         (mockDecode [mockWorkspace]) (mockServer "[]")
                         ("test-org" ++ ":" ++ "test-workspace"))
                      None)
                 (Response.mk 200 (Ok "[]"))).
  { eexists. split; reflexivity. }
  destruct (@Import_resolves_where_data_source_stops no_url_error
              mockConversionError
              (mockDecode mockWorkspace) (mockDecode [mockWorkspace])
              (mockServer "[]") "test-org" "test-workspace" [mockWorkspace]
              mockWorkspace (Response.mk 200 (Ok "[]")) "[]"
              eq_refl eq_refl Hr eq_refl eq_refl eq_refl eq_refl)
    as [Himport Hdata].
  split.
  - exact Himport.
  - rewrite Hdata. reflexivity.
Defined.

(** [VCS_ImportState_leaves_client_secret_null] at the VCS connection of
    the tests. *)
Lemma VCS_ImportState_leaves_client_secret_null_witness :
  option_map VCSResourceModel.ClientSecret
    (State
       (run (@VCSResource.ImportState no_url_error (mockDecode [mockVCS])
               (mockServer "[]") "test-org:test-vcs")
            None))
  = Some types.StringNull
  /\ Diagnostics
       (run (@VCSResource.ImportState no_url_error (mockDecode [mockVCS])
               (mockServer "[]") "test-org:test-vcs")
            None)
     = [].
Proof.
  assert (Hr : received (mockServer "[]")
                 (run (@VCSResource.ImportState no_url_error
                         (mockDecode [mockVCS]) (mockServer "[]")
                         "test-org:test-vcs")
                      None)
                 (Response.mk 200 (Ok "[]"))).
  { eexists. split; reflexivity. }
  destruct (@VCS_ImportState_leaves_client_secret_null no_url_error
              (mockDecode [mockVCS]) (mockServer "[]")
              "test-org:test-vcs" "test-org" "test-vcs"
              (Response.mk 200 (Ok "[]")) "[]" [mockVCS] mockVCS
              eq_refl Hr eq_refl eq_refl eq_refl eq_refl)
    as [Hd Hst].
  rewrite Hst. split; [reflexivity | exact Hd].
Defined.

(** * Further properties of the handlers *)

(** As [hreceived], for [Hc : client r req = Err msg]. *)
Ltac hfailed Hc :=
  let Hs := fresh "Hs" in
  intros Hs; try discriminate Hs; injection Hs as <-;
  match goal with
  | H : client _ _ = Ok _ |- _ =>
      exfalso; generalize (eq_trans (eq_sym H) Hc); discriminate
  | H : client _ _ = Err ?e |- _ =>
      tryif constr_eq H Hc then fail else
        (let E := fresh "E" in
         pose proof (eq_trans (eq_sym H) Hc) as E; injection E as ->; clear H)
  end.

Ltac unfold_operation :=
  unfold Operation.frame in *;
  cbn [Operation.frame Operation.handler Operation.prior Operation.method
       Operation.decodes_after
       Adapter.Create Adapter.Read Adapter.Update Adapter.Delete
       Adapter.Model Adapter.Response Adapter.decode Adapter.refreshed
       Adapter.created] in *;
  unfold_adapters.

Section Operations.
Variable url_error : string -> option string.
Context {decodeOrganization : Unmarshal OrganizationAPIResponse.t}.
Context {decodeWorkspace : Unmarshal WorkspaceAPIResponse.t}.
Context {decodeVariable : Unmarshal VariableAPIResponse.t}.
Context {decodeVCS : Unmarshal VCSAPIResponse.t}.
Variable r : InfradotsProvider.

(** ** One request, of one shape *)

(** X1. Whatever the arguments and whatever the client answers, a
    [Create], [Read], [Update] or [Delete] of any of the four resource
    adapters hands the client at most one request. *)
Theorem Operation_sends_at_most_one_request
  (a : Adapter.t) (op : Operation.t a) :
  length (Sent (Operation.frame url_error r op)) <= 1.
Proof.
  destruct a, op; unfold_operation; hrun; cbn [length]; lia.
Qed.

(** X2. Every request of a resource adapter has the method of its
    operation (POST, GET, PATCH, DELETE), the header
    [Authorization: Bearer <token>], a body exactly for [Create] and
    [Update], and the header [Content-Type: application/json] exactly with
    a body. *)
Theorem Operation_request_shape
  (a : Adapter.t) (op : Operation.t a) (req : Request.t) :
  In req (Sent (Operation.frame url_error r op)) ->
  Request.Method_ req = Operation.method op
  /\ In ("Authorization", "Bearer " ++ token r) (Request.Header req)
  /\ (Request.Body req = None <->
      Operation.method op = MethodGet \/ Operation.method op = MethodDelete)
  /\ (In ("Content-Type", "application/json") (Request.Header req) <->
      Request.Body req <> None).
Proof.
  destruct a, op; unfold_operation; hrun;
    cbn [In]; intros Hin; try contradiction;
    (destruct Hin as [<-|Hin]; [|contradiction]);
    cbn [Request.Method_ Request.Header Request.Body Header_Set app In];
    (split; [reflexivity|]);
    (split; [tauto|]);
    (split; split; intros H;
     try reflexivity; try discriminate H; try tauto;
     try (intros H'; discriminate H');
     try (exfalso; apply H; reflexivity);
     try (destruct H as [H|H]; discriminate H);
     try (destruct H as [H|[]]; discriminate H);
     try (destruct H as [H|[H|[]]]; discriminate H)).
Qed.

(** ** Failures *)

(** X3. An operation that sends no request has failed to build it: the one
    diagnostic is "Error creating request" and the response state is the
    one the handler was given. *)
Theorem Operation_without_request
  (a : Adapter.t) (op : Operation.t a) :
  Sent (Operation.frame url_error r op) = [] ->
  State (Operation.frame url_error r op) = Operation.prior op
  /\ exists detail,
      Diagnostics (Operation.frame url_error r op)
      = [{| Summary := "Error creating request"; Detail := detail |}].
Proof.
  destruct a, op; unfold_operation; hrun; intros Hs; try discriminate Hs;
    (split; [reflexivity | eexists; reflexivity]).
Qed.

(** X4. When the client returns a transport error, the operation keeps the
    response state it was given and reports that error as its one
    diagnostic. *)
Theorem Operation_transport_error
  (a : Adapter.t) (op : Operation.t a) (msg : string) :
  failed r (Operation.frame url_error r op) msg ->
  State (Operation.frame url_error r op) = Operation.prior op
  /\ exists summary,
      Diagnostics (Operation.frame url_error r op)
      = [{| Summary := summary; Detail := msg |}].
Proof.
  intros [req [Hs Hc]]. revert Hs.
  destruct a, op; unfold_operation; hrun; hfailed Hc;
    (split; [reflexivity | eexists; reflexivity]).
Qed.

(** X5. A [Create] answered with any status other than 201, 200 included,
    sets no state and reports "Non-201 response" with the status and the
    body. *)
Theorem Create_requires_201
  (a : Adapter.t) (plan : Adapter.Model a) (resp : Response.t) (body : string) :
  received r (run (Adapter.Create url_error r a plan) None) resp ->
  Response.Body resp = Ok body ->
  Response.StatusCode resp <> 201%Z ->
  State (run (Adapter.Create url_error r a plan) None) = None
  /\ Diagnostics (run (Adapter.Create url_error r a plan) None)
     = [{| Summary := "Non-201 response";
           Detail := "Status: " ++ Itoa (Response.StatusCode resp)
                     ++ ", Body: " ++ body |}].
Proof.
  intros [req [Hs Hc]] Hb Hst. revert Hs.
  destruct a; cbn [Adapter.Create Adapter.Model] in *; unfold_adapters; hrun;
    hreceived Hc; hstatus;
    (split; [reflexivity|]); repeat f_equal; congruence.
Qed.

(** X6. A [Read] answered with a status other than 404 and 200 keeps the
    record in the state and reports "Read failed" with the status. *)
Theorem Read_other_status_is_fatal
  (a : Adapter.t) (state : Adapter.Model a) (resp : Response.t) :
  received r (run (Adapter.Read url_error r a state) (Some state)) resp ->
  Response.StatusCode resp <> 404%Z ->
  Response.StatusCode resp <> 200%Z ->
  State (run (Adapter.Read url_error r a state) (Some state)) = Some state
  /\ Diagnostics (run (Adapter.Read url_error r a state) (Some state))
     = [{| Summary := "Read failed";
           Detail := "Status code: " ++ Itoa (Response.StatusCode resp) |}].
Proof.
  intros [req [Hs Hc]] H404 H200. revert Hs.
  destruct a; cbn [Adapter.Read Adapter.Model] in *; unfold_adapters; hrun;
    hreceived Hc; hstatus; split; reflexivity.
Qed.

(** X7. An [Update] answered with a status other than 200 leaves the prior
    state in place and reports "Update failed" with the status and the
    body. *)
Theorem Update_requires_200
  (a : Adapter.t) (plan state : Adapter.Model a) (resp : Response.t)
  (body : string) :
  received r (run (Adapter.Update url_error r a plan state) (Some state)) resp ->
  Response.Body resp = Ok body ->
  Response.StatusCode resp <> 200%Z ->
  State (run (Adapter.Update url_error r a plan state) (Some state)) = Some state
  /\ Diagnostics (run (Adapter.Update url_error r a plan state) (Some state))
     = [{| Summary := "Update failed";
           Detail := "Status code: " ++ Itoa (Response.StatusCode resp)
                     ++ ", Body: " ++ body |}].
Proof.
  intros [req [Hs Hc]] Hb Hst. revert Hs.
  destruct a; cbn [Adapter.Update Adapter.Model] in *; unfold_adapters; hrun;
    hreceived Hc; hstatus;
    (split; [reflexivity|]); repeat f_equal; congruence.
Qed.

(** The state a successful [Update] sets. *)
Lemma Update_sets
  (a : Adapter.t) (plan state : Adapter.Model a) (resp : Response.t)
  (body : string) (rec : Adapter.Response a) :
  received r (run (Adapter.Update url_error r a plan state) (Some state)) resp ->
  Response.StatusCode resp = 200%Z ->
  Response.Body resp = Ok body ->
  json_Unmarshal (Unmarshal := Adapter.decode a) body = Ok rec ->
  State (run (Adapter.Update url_error r a plan state) (Some state))
  = Some (Adapter.refreshed a plan rec)
  /\ Diagnostics (run (Adapter.Update url_error r a plan state) (Some state)) = [].
Proof.
  intros [req [Hs Hc]] H200 Hb Hj. revert Hs.
  destruct a;
    cbn [Adapter.Update Adapter.Model Adapter.Response Adapter.decode
         Adapter.refreshed] in *;
    unfold_adapters; hrun; hreceived Hc; hstatus;
    (split; [|reflexivity]); repeat f_equal; congruence.
Qed.

(** X8. A body that does not decode, after the status the operation
    expects (201 for [Create], 200 for [Read] and [Update]), leaves the
    response state as given and reports "Error parsing response" with the
    decoder's error. *)
Theorem Operation_decode_error
  (a : Adapter.t) (op : Operation.t a) (resp : Response.t) (body e : string) :
  received r (Operation.frame url_error r op) resp ->
  Operation.decodes_after op = Some (Response.StatusCode resp) ->
  Response.Body resp = Ok body ->
  json_Unmarshal (Unmarshal := Adapter.decode a) body = Err e ->
  State (Operation.frame url_error r op) = Operation.prior op
  /\ Diagnostics (Operation.frame url_error r op)
     = [{| Summary := "Error parsing response"; Detail := e |}].
Proof.
  intros [req [Hs Hc]] Hst Hb Hj. revert Hs.
  destruct a, op; unfold_operation; try discriminate Hst;
    injection Hst as Hst; symmetry in Hst; hrun; hreceived Hc; hstatus;
    (split; [reflexivity|]); repeat f_equal; congruence.
Qed.

End Operations.

Lemma has_member_member (key k : string) (v : JSON) :
  has_member key (member k v) = String.eqb k key.
Proof.
  unfold has_member, member. cbn [member_of].
  destruct (String.eqb k key); reflexivity.
Qed.

Ltac create_members :=
  unfold OrganizationUpdateRequest.json_Marshal,
    WorkspaceCreateRequest.json_Marshal, VariableCreateRequest.json_Marshal,
    VCSCreateRequest.json_Marshal in *;
  cbn [OrganizationUpdateRequest.Name OrganizationUpdateRequest.ExecutionMode
       OrganizationUpdateRequest.AgentsEnabled
       WorkspaceCreateRequest.Name WorkspaceCreateRequest.Description
       WorkspaceCreateRequest.Source WorkspaceCreateRequest.Branch
       WorkspaceCreateRequest.TerraformVersion
       VariableCreateRequest.Key VariableCreateRequest.Value
       VariableCreateRequest.Description VariableCreateRequest.Category
       VariableCreateRequest.Sensitive VariableCreateRequest.HCL
       VCSCreateRequest.Name VCSCreateRequest.VcsType VCSCreateRequest.URL
       VCSCreateRequest.ClientId VCSCreateRequest.ClientSecret
       VCSCreateRequest.Description] in *;
  rewrite ?has_member_app, ?has_member_omitempty_string,
    ?has_member_omitempty_bool, ?has_member_member in *.

Section Requests.
Variable url_error : string -> option string.
Context {decodeOrganization : Unmarshal OrganizationAPIResponse.t}.
Context {decodeWorkspace : Unmarshal WorkspaceAPIResponse.t}.
Context {decodeVariable : Unmarshal VariableAPIResponse.t}.
Context {decodeVCS : Unmarshal VCSAPIResponse.t}.
Variable r : InfradotsProvider.

(** ** Where the requests go and what they carry *)

(** X9. [Delete] addresses the URL [Read] addresses. [Update] addresses it
    too when plan and state agree on the organization name and, except for
    a workspace, on the id: a workspace is addressed by the name in the
    state, so a plan that renames it still reaches the record. *)
Theorem Update_and_Delete_address_what_Read_reads
  (a : Adapter.t) (plan state : Adapter.Model a) :
  url_of (run (Adapter.Delete url_error r a state) (Some state))
  = url_of (run (Adapter.Read url_error r a state) (Some state))
  /\ (model_OrganizationName a plan = model_OrganizationName a state ->
      (a <> Adapter.workspace -> model_ID a plan = model_ID a state) ->
      url_of (run (Adapter.Update url_error r a plan state) (Some state))
      = url_of (run (Adapter.Read url_error r a state) (Some state))).
Proof.
  split.
  - destruct a; cbn [Adapter.Delete Adapter.Read Adapter.Model] in *;
      unfold_adapters; unfold url_of; hrun; reflexivity.
  - intros Horg Hid.
    destruct a;
      cbn [Adapter.Update Adapter.Read Adapter.Model model_ID
           model_OrganizationName] in *;
      try (injection Horg as Horg);
      try (assert (Hid' := Hid ltac:(discriminate)); clear Hid);
      unfold_adapters; unfold url_of;
      rewrite ?Horg, ?Hid'; hrun; reflexivity.
Qed.

(** X10. The requests of the Workspace [Create] and [Update] do not depend
    on [vcs_id]: no request struct has the field. *)
Theorem Workspace_requests_ignore_vcs_id
  (v v' : types.String) (plan state : WorkspaceResourceModel.t)
  (initial : option WorkspaceResourceModel.t) :
  Sent (run (WorkspaceResource.Create url_error r (with_VcsId v plan)) initial)
  = Sent (run (WorkspaceResource.Create url_error r plan) initial)
  /\ Sent (run (WorkspaceResource.Update url_error r (with_VcsId v plan)
                  (with_VcsId v' state))
               initial)
     = Sent (run (WorkspaceResource.Update url_error r plan state) initial).
Proof.
  split; unfold_adapters; unfold WorkspaceResource.updateReq, with_VcsId;
    cbn [WorkspaceResourceModel.ID WorkspaceResourceModel.OrganizationName
         WorkspaceResourceModel.Name WorkspaceResourceModel.Description
         WorkspaceResourceModel.Source WorkspaceResourceModel.Branch
         WorkspaceResourceModel.TerraformVersion];
    hrun; reflexivity.
Qed.

(** The one request [Create] sends carries the marshalled create request. *)
Lemma Create_payload (a : Adapter.t) (plan : Adapter.Model a) (p : JObject) :
  payload (run (Adapter.Create url_error r a plan) None) = Some p ->
  p = match a return Adapter.Model a -> JObject with
      | Adapter.organization => fun plan =>
          OrganizationUpdateRequest.json_Marshal
            (OrganizationUpdateRequest.mk
               (types.ValueString (OrganizationResourceModel.Name plan))
               (types.ValueString (OrganizationResourceModel.ExecutionMode plan))
               (types.ValueBool (OrganizationResourceModel.AgentsEnabled plan)))
      | Adapter.workspace => fun plan =>
          WorkspaceCreateRequest.json_Marshal
            (WorkspaceCreateRequest.mk
               (types.ValueString (WorkspaceResourceModel.Name plan))
               (types.ValueString (WorkspaceResourceModel.Description plan))
               (types.ValueString (WorkspaceResourceModel.Source plan))
               (types.ValueString (WorkspaceResourceModel.Branch plan))
               (types.ValueString (WorkspaceResourceModel.TerraformVersion plan)))
      | Adapter.variable => fun plan =>
          VariableCreateRequest.json_Marshal
            (VariableCreateRequest.mk
               (types.ValueString (VariableResourceModel.Key plan))
               (types.ValueString (VariableResourceModel.Value plan))
               (types.ValueString (VariableResourceModel.Description plan))
               (types.ValueString (VariableResourceModel.Category plan))
               (types.ValueBool (VariableResourceModel.Sensitive plan))
               (types.ValueBool (VariableResourceModel.HCL plan)))
      | Adapter.vcs => fun plan =>
          VCSCreateRequest.json_Marshal
            (VCSCreateRequest.mk
               (types.ValueString (VCSResourceModel.Name plan))
               (types.ValueString (VCSResourceModel.VcsType plan))
               (types.ValueString (VCSResourceModel.URL plan))
               (types.ValueString (VCSResourceModel.ClientId plan))
               (types.ValueString (VCSResourceModel.ClientSecret plan))
               (types.ValueString (VCSResourceModel.Description plan)))
      end plan.
Proof.
  destruct a; cbn [Adapter.Create Adapter.Model] in *; unfold_adapters; hrun;
    intros H; try discriminate H; injection H as <-; reflexivity.
Qed.

(** X11. The body of a [Create] request always has the members the create
    request declares without [omitempty] (for a workspace: name, source,
    branch, terraform_version; for a variable: key, value; for a VCS
    connection: name, vcsType, endpoint, clientId, clientSecret), has an
    [omitempty] string only when the plan's value is not empty and an
    [omitempty] boolean only when it is true, and has nothing else. The
    Organization [Create] marshals [OrganizationUpdateRequest], so all its
    members are under [omitempty]: a plan with [agents_enabled] false sends
    no [agents_enabled]. *)
Theorem Create_payload_members
  (a : Adapter.t) (plan : Adapter.Model a) (p : JObject) :
  payload (run (Adapter.Create url_error r a plan) None) = Some p ->
  (forall f, In f (create_fields a plan) ->
             has_member (create_key f) p = create_present f)
  /\ (forall key, has_member key p = true ->
                  In key (map create_key (create_fields a plan))).
Proof.
  intros Hp. apply Create_payload in Hp. subst p.
  destruct a; cbn [Adapter.Model create_fields] in *; split.
  1,3,5,7:
    intros f Hin; cbn [In] in Hin;
    repeat match type of Hin with
           | _ \/ _ => destruct Hin as [Hin|Hin]
           end;
    try contradiction; subst f; cbn [create_key create_present];
    create_members; keys; reflexivity.
  all: intros key H; create_members; cbn [map create_key In];
    repeat (apply orb_true_iff in H; destruct H as [H|H]);
    try (apply andb_true_iff in H; destruct H as [H _]);
    apply String.eqb_eq in H; subst key; tauto.
Qed.

End Requests.

(** [Read]'s assignments applied twice are [Read]'s assignments. *)
Lemma refreshed_refreshed
  (a : Adapter.t) (base : Adapter.Model a) (rec : Adapter.Response a) :
  Adapter.refreshed a (Adapter.refreshed a base rec) rec
  = Adapter.refreshed a base rec.
Proof. destruct a; reflexivity. Qed.

Section Composition.
Variable url_error : string -> option string.
Context {decodeOrganization : Unmarshal OrganizationAPIResponse.t}.
Context {decodeWorkspace : Unmarshal WorkspaceAPIResponse.t}.
Context {decodeWorkspaces : Unmarshal (list WorkspaceAPIResponse.t)}.
Context {decodeVariable : Unmarshal VariableAPIResponse.t}.
Context {decodeVCS : Unmarshal VCSAPIResponse.t}.
Context {decodeVCSList : Unmarshal (list VCSAPIResponse.t)}.
Variable r : InfradotsProvider.

(** ** Update, and Read after it *)

(** X12. A successful [Update] sets the state from the response and keeps
    from the plan what no response carries: the organization name, a
    workspace's [vcs_id] and a VCS connection's [client_secret]. *)
Theorem Update_sets_response_over_plan
  (a : Adapter.t) (plan state : Adapter.Model a) (resp : Response.t)
  (body : string) (rec : Adapter.Response a) :
  received r (run (Adapter.Update url_error r a plan state) (Some state)) resp ->
  Response.StatusCode resp = 200%Z ->
  Response.Body resp = Ok body ->
  json_Unmarshal (Unmarshal := Adapter.decode a) body = Ok rec ->
  Diagnostics (run (Adapter.Update url_error r a plan state) (Some state)) = []
  /\ exists data,
      State (run (Adapter.Update url_error r a plan state) (Some state))
      = Some data
      /\ data = Adapter.refreshed a plan rec
      /\ model_OrganizationName a data = model_OrganizationName a plan
      /\ match a return Adapter.Model a -> Adapter.Model a -> Prop with
         | Adapter.workspace => fun data plan =>
             WorkspaceResourceModel.VcsId data = WorkspaceResourceModel.VcsId plan
         | Adapter.vcs => fun data plan =>
             VCSResourceModel.ClientSecret data
             = VCSResourceModel.ClientSecret plan
         | _ => fun _ _ => True
         end data plan.
Proof.
  intros Hr H200 Hb Hj.
  destruct (Update_sets url_error r a plan state resp body rec Hr H200 Hb Hj)
    as [Hst Hd].
  split; [exact Hd|].
  exists (Adapter.refreshed a plan rec).
  split; [exact Hst|]. split; [reflexivity|].
  destruct a; split; reflexivity || exact I.
Qed.

(** X13. After a successful [Read] or [Update], a [Read] that decodes the
    same record sets the state it finds: for all four adapters a refresh
    without a change on the server changes nothing. *)
Theorem Read_after_Read_or_Update_is_stable
  (a : Adapter.t) (op : Operation.t a) (data : Adapter.Model a)
  (resp resp' : Response.t) (body body' : string) (rec : Adapter.Response a) :
  Operation.decodes_after op = Some 200%Z ->
  received r (Operation.frame url_error r op) resp ->
  Response.StatusCode resp = 200%Z ->
  Response.Body resp = Ok body ->
  json_Unmarshal (Unmarshal := Adapter.decode a) body = Ok rec ->
  State (Operation.frame url_error r op) = Some data ->
  received r (run (Adapter.Read url_error r a data) (Some data)) resp' ->
  Response.StatusCode resp' = 200%Z ->
  Response.Body resp' = Ok body' ->
  json_Unmarshal (Unmarshal := Adapter.decode a) body' = Ok rec ->
  State (run (Adapter.Read url_error r a data) (Some data)) = Some data
  /\ Diagnostics (run (Adapter.Read url_error r a data) (Some data)) = [].
Proof.
  intros Hop Hr H200 Hb Hj Hdata Hr' H200' Hb' Hj'.
  destruct (Read_sets url_error r a data resp' body' rec Hr' H200' Hb' Hj')
    as [Hst' Hd'].
  split; [|exact Hd'].
  rewrite Hst'. f_equal.
  destruct op as [plan|state|plan state|state]; try discriminate Hop;
    unfold Operation.frame in *;
    cbn [Operation.handler Operation.prior] in *.
  - destruct (Read_sets url_error r a state resp body rec Hr H200 Hb Hj)
      as [Hst _].
    rewrite Hst in Hdata. injection Hdata as <-.
    apply refreshed_refreshed.
  - destruct (Update_sets url_error r a plan state resp body rec Hr H200 Hb Hj)
      as [Hst _].
    rewrite Hst in Hdata. injection Hdata as <-.
    apply refreshed_refreshed.
Qed.

(** ** Import, and Read after it *)

Lemma Workspace_ImportState_sets
  (ID organizationName workspaceName : string) (resp : Response.t)
  (body : string) (workspaces : list WorkspaceAPIResponse.t)
  (rec : WorkspaceAPIResponse.t) :
  strings_Split ID ":" = [organizationName; workspaceName] ->
  received r (run (WorkspaceResource.ImportState url_error r ID) None) resp ->
  Response.StatusCode resp = 200%Z ->
  Response.Body resp = Ok body ->
  json_Unmarshal body = Ok workspaces ->
  WorkspaceResource.find workspaces workspaceName = Some rec ->
  Diagnostics (run (WorkspaceResource.ImportState url_error r ID) None) = []
  /\ State (run (WorkspaceResource.ImportState url_error r ID) None)
     = Some (WorkspaceResource.fromResponse
               (WorkspaceResourceModel.mk
                  types.StringNull (types.StringValue organizationName)
                  types.StringNull types.StringNull types.StringNull
                  types.StringNull types.StringNull types.StringNull
                  types.StringNull types.StringNull types.ObjectNull)
               rec).
Proof.
  intros Hkey [req [Hs Hc]] H200 Hb Hj Hfind. revert Hs.
  unfold WorkspaceResource.ImportState. cbv zeta. rewrite Hkey.
  cbn [length Nat.eqb negb nth].
  hrun; hreceived Hc; hstatus.
  unfold WorkspaceResource.fromResponse.
  cbn [WorkspaceResourceModel.VcsId WorkspaceResourceModel.OrganizationName
       WorkspaceResource.zero].
  split; [reflexivity|]. repeat f_equal; congruence.
Qed.

Lemma VCS_ImportState_sets
  (ID organizationName vcsName : string) (resp : Response.t) (body : string)
  (vcsList : list VCSAPIResponse.t) (rec : VCSAPIResponse.t) :
  strings_Split ID ":" = [organizationName; vcsName] ->
  received r (run (VCSResource.ImportState url_error r ID) None) resp ->
  Response.StatusCode resp = 200%Z ->
  Response.Body resp = Ok body ->
  json_Unmarshal body = Ok vcsList ->
  VCSResource.find vcsList vcsName = Some rec ->
  Diagnostics (run (VCSResource.ImportState url_error r ID) None) = []
  /\ State (run (VCSResource.ImportState url_error r ID) None)
     = Some (VCSResource.fromResponse
               (VCSResourceModel.mk
                  types.StringNull (types.StringValue organizationName)
                  types.StringNull types.StringNull types.StringNull
                  types.StringNull types.StringNull types.StringNull
                  types.StringNull types.StringNull)
               rec).
Proof.
  intros Hkey [req [Hs Hc]] H200 Hb Hj Hfind. revert Hs.
  unfold VCSResource.ImportState. cbv zeta. rewrite Hkey.
  cbn [length Nat.eqb negb nth].
  hrun; hreceived Hc; hstatus.
  unfold VCSResource.fromResponse.
  cbn [VCSResourceModel.ClientSecret VCSResourceModel.OrganizationName
       VCSResource.zero].
  split; [reflexivity|]. repeat f_equal; congruence.
Qed.

(** X14. The state a successful [ImportState] sets is the state [Read]
    sets from the same record: a [Read] after the import that decodes the
    matched record changes nothing, for a workspace (whose [vcs_id] stays
    null) and for a VCS connection (whose [client_secret] stays null). *)
Theorem Read_after_ImportState_is_stable :
  (forall (ID organizationName workspaceName : string) (resp resp' : Response.t)
          (body body' : string) (workspaces : list WorkspaceAPIResponse.t)
          (rec : WorkspaceAPIResponse.t) (data : WorkspaceResourceModel.t),
      strings_Split ID ":" = [organizationName; workspaceName] ->
      received r (run (WorkspaceResource.ImportState url_error r ID) None) resp ->
      Response.StatusCode resp = 200%Z ->
      Response.Body resp = Ok body ->
      json_Unmarshal body = Ok workspaces ->
      WorkspaceResource.find workspaces workspaceName = Some rec ->
      State (run (WorkspaceResource.ImportState url_error r ID) None) = Some data ->
      received r (run (WorkspaceResource.Read url_error r data) (Some data)) resp' ->
      Response.StatusCode resp' = 200%Z ->
      Response.Body resp' = Ok body' ->
      json_Unmarshal body' = Ok rec ->
      State (run (WorkspaceResource.Read url_error r data) (Some data)) = Some data
      /\ WorkspaceResourceModel.VcsId data = types.StringNull)
  /\ (forall (ID organizationName vcsName : string) (resp resp' : Response.t)
             (body body' : string) (vcsList : list VCSAPIResponse.t)
             (rec : VCSAPIResponse.t) (data : VCSResourceModel.t),
      strings_Split ID ":" = [organizationName; vcsName] ->
      received r (run (VCSResource.ImportState url_error r ID) None) resp ->
      Response.StatusCode resp = 200%Z ->
      Response.Body resp = Ok body ->
      json_Unmarshal body = Ok vcsList ->
      VCSResource.find vcsList vcsName = Some rec ->
      State (run (VCSResource.ImportState url_error r ID) None) = Some data ->
      received r (run (VCSResource.Read url_error r data) (Some data)) resp' ->
      Response.StatusCode resp' = 200%Z ->
      Response.Body resp' = Ok body' ->
      json_Unmarshal body' = Ok rec ->
      State (run (VCSResource.Read url_error r data) (Some data)) = Some data
      /\ VCSResourceModel.ClientSecret data = types.StringNull).
Proof.
  split.
  - intros ID org name resp resp' body body' workspaces rec data
           Hkey Hr H200 Hb Hj Hfind Hdata Hr' H200' Hb' Hj'.
    destruct (Workspace_ImportState_sets ID org name resp body workspaces rec
                Hkey Hr H200 Hb Hj Hfind) as [_ Hst].
    rewrite Hst in Hdata. injection Hdata as <-.
    destruct (Read_sets url_error r Adapter.workspace _ resp' body' rec
                Hr' H200' Hb' Hj') as [Hst' _].
    split; [exact Hst' | reflexivity].
  - intros ID org name resp resp' body body' vcsList rec data
           Hkey Hr H200 Hb Hj Hfind Hdata Hr' H200' Hb' Hj'.
    destruct (VCS_ImportState_sets ID org name resp body vcsList rec
                Hkey Hr H200 Hb Hj Hfind) as [_ Hst].
    rewrite Hst in Hdata. injection Hdata as <-.
    destruct (Read_sets url_error r Adapter.vcs _ resp' body' rec
                Hr' H200' Hb' Hj') as [Hst' _].
    split; [exact Hst' | reflexivity].
Qed.

End Composition.

(** ** The scan by name *)

(** X15. The scan of [ImportState] returns a record exactly when it splits
    the list into records of other names, that record of the name sought,
    and a rest: of several records of one name the first is taken. It
    returns none exactly when no record has the name. *)
Theorem find_takes_the_first_match :
  (forall (workspaces : list WorkspaceAPIResponse.t) (name : string)
          (w : WorkspaceAPIResponse.t),
      WorkspaceResource.find workspaces name = Some w <->
      exists before rest,
        workspaces = (before ++ w :: rest)%list
        /\ WorkspaceAPIResponse.Name w = name
        /\ Forall (fun x => WorkspaceAPIResponse.Name x <> name) before)
  /\ (forall (workspaces : list WorkspaceAPIResponse.t) (name : string),
      WorkspaceResource.find workspaces name = None <->
      Forall (fun x => WorkspaceAPIResponse.Name x <> name) workspaces)
  /\ (forall (vcsList : list VCSAPIResponse.t) (name : string)
             (v : VCSAPIResponse.t),
      VCSResource.find vcsList name = Some v <->
      exists before rest,
        vcsList = (before ++ v :: rest)%list
        /\ VCSAPIResponse.Name v = name
        /\ Forall (fun x => VCSAPIResponse.Name x <> name) before)
  /\ (forall (vcsList : list VCSAPIResponse.t) (name : string),
      VCSResource.find vcsList name = None <->
      Forall (fun x => VCSAPIResponse.Name x <> name) vcsList).
Proof.
  repeat split.
  - revert w. induction workspaces as [|x l IH]; intros w H;
      cbn [WorkspaceResource.find] in H; [discriminate H|].
    destruct (String.eqb (WorkspaceAPIResponse.Name x) name) eqn:E.
    + injection H as <-. apply String.eqb_eq in E.
      exists [], l. repeat split; [exact E | constructor].
    + apply IH in H. destruct H as [before [rest [-> [Hn Hb]]]].
      exists (x :: before), rest. repeat split; [exact Hn|].
      constructor; [|exact Hb]. apply String.eqb_neq. exact E.
  - intros [before [rest [-> [Hn Hb]]]].
    induction Hb as [|x l Hx Hb IH]; cbn [app WorkspaceResource.find].
    + apply String.eqb_eq in Hn. rewrite Hn. reflexivity.
    + apply String.eqb_neq in Hx. rewrite Hx. exact IH.
  - induction workspaces as [|x l IH]; intros H; [constructor|].
    cbn [WorkspaceResource.find] in H.
    destruct (String.eqb (WorkspaceAPIResponse.Name x) name) eqn:E;
      [discriminate H|].
    constructor; [apply String.eqb_neq; exact E | exact (IH H)].
  - intros H. induction H as [|x l Hx H IH]; cbn [WorkspaceResource.find].
    + reflexivity.
    + apply String.eqb_neq in Hx. rewrite Hx. exact IH.
  - revert v. induction vcsList as [|x l IH]; intros v H;
      cbn [VCSResource.find] in H; [discriminate H|].
    destruct (String.eqb (VCSAPIResponse.Name x) name) eqn:E.
    + injection H as <-. apply String.eqb_eq in E.
      exists [], l. repeat split; [exact E | constructor].
    + apply IH in H. destruct H as [before [rest [-> [Hn Hb]]]].
      exists (x :: before), rest. repeat split; [exact Hn|].
      constructor; [|exact Hb]. apply String.eqb_neq. exact E.
  - intros [before [rest [-> [Hn Hb]]]].
    induction Hb as [|x l Hx Hb IH]; cbn [app VCSResource.find].
    + apply String.eqb_eq in Hn. rewrite Hn. reflexivity.
    + apply String.eqb_neq in Hx. rewrite Hx. exact IH.
  - induction vcsList as [|x l IH]; intros H; [constructor|].
    cbn [VCSResource.find] in H.
    destruct (String.eqb (VCSAPIResponse.Name x) name) eqn:E;
      [discriminate H|].
    constructor; [apply String.eqb_neq; exact E | exact (IH H)].
  - intros H. induction H as [|x l Hx H IH]; cbn [VCSResource.find].
    + reflexivity.
    + apply String.eqb_neq in Hx. rewrite Hx. exact IH.
Qed.

Section Imports.
Variable url_error : string -> option string.
Variable conversion_error : list string -> list string -> string.
Context {decodeWorkspaces : Unmarshal (list WorkspaceAPIResponse.t)}.
Context {decodeVCS : Unmarshal VCSAPIResponse.t}.
Context {decodeVCSList : Unmarshal (list VCSAPIResponse.t)}.
Variable r : InfradotsProvider.

(** ** Import keys *)

(** X16. [ImportState] of the Workspace and of the VCS resource reports
    "Invalid import ID format" exactly for the keys that do not have exactly
    one colon; a key such as ":" or "org:" passes the check with an empty
    segment. *)
Theorem ImportState_accepts_exactly_one_colon (ID : string) :
  (Diagnostics (run (WorkspaceResource.ImportState url_error r ID) None)
   = [{| Summary := "Invalid import ID format";
         Detail := "Import ID must be in the format 'organization_name:workspace_name'" |}]
   <-> strings_Count ID ":" <> 1)
  /\ (Diagnostics (run (VCSResource.ImportState url_error r ID) None)
      = [{| Summary := "Invalid import ID format";
            Detail := "Import ID must be in the format 'organization_name:vcs_name'" |}]
      <-> strings_Count ID ":" <> 1).
Proof.
  pose proof (strings_Split_length ID ":") as Hlen.
  split; split.
  - intros Hd Hone. rewrite Hone in Hlen. revert Hd.
    unfold WorkspaceResource.ImportState. cbv zeta. rewrite Hlen.
    cbn [Nat.eqb negb].
    hrun; intros Hd; discriminate Hd.
  - intros Hne.
    assert (Hl : Nat.eqb (length (strings_Split ID ":")) 2 = false).
    { apply Nat.eqb_neq. rewrite Hlen. intros H. injection H as H. tauto. }
    unfold WorkspaceResource.ImportState. cbv zeta. rewrite Hl. reflexivity.
  - intros Hd Hone. rewrite Hone in Hlen. revert Hd.
    unfold VCSResource.ImportState. cbv zeta. rewrite Hlen.
    cbn [Nat.eqb negb].
    hrun; intros Hd; discriminate Hd.
  - intros Hne.
    assert (Hl : Nat.eqb (length (strings_Split ID ":")) 2 = false).
    { apply Nat.eqb_neq. rewrite Hlen. intros H. injection H as H. tauto. }
    unfold VCSResource.ImportState. cbv zeta. rewrite Hl. reflexivity.
Qed.

(** X17. An import whose list has no record of the name sets no state and
    reports "Workspace not found" (or "VCS connection not found") naming the
    record and the organization. *)
Theorem ImportState_not_found :
  (forall (ID organizationName workspaceName : string) (resp : Response.t)
          (body : string) (workspaces : list WorkspaceAPIResponse.t),
      strings_Split ID ":" = [organizationName; workspaceName] ->
      received r (run (WorkspaceResource.ImportState url_error r ID) None) resp ->
      Response.StatusCode resp = 200%Z ->
      Response.Body resp = Ok body ->
      json_Unmarshal body = Ok workspaces ->
      WorkspaceResource.find workspaces workspaceName = None ->
      State (run (WorkspaceResource.ImportState url_error r ID) None) = None
      /\ Diagnostics (run (WorkspaceResource.ImportState url_error r ID) None)
         = [{| Summary := "Workspace not found";
               Detail := "No workspace with name '" ++ workspaceName
                         ++ "' found in organization '" ++ organizationName
                         ++ "'" |}])
  /\ (forall (ID organizationName vcsName : string) (resp : Response.t)
             (body : string) (vcsList : list VCSAPIResponse.t),
      strings_Split ID ":" = [organizationName; vcsName] ->
      received r (run (VCSResource.ImportState url_error r ID) None) resp ->
      Response.StatusCode resp = 200%Z ->
      Response.Body resp = Ok body ->
      json_Unmarshal body = Ok vcsList ->
      VCSResource.find vcsList vcsName = None ->
      State (run (VCSResource.ImportState url_error r ID) None) = None
      /\ Diagnostics (run (VCSResource.ImportState url_error r ID) None)
         = [{| Summary := "VCS connection not found";
               Detail := "No VCS connection with name '" ++ vcsName
                         ++ "' found in organization '" ++ organizationName
                         ++ "'" |}]).
Proof.
  split; intros ID org name resp body l Hkey [req [Hs Hc]] H200 Hb Hj Hfind;
    revert Hs;
    unfold WorkspaceResource.ImportState, VCSResource.ImportState;
    cbv zeta; rewrite Hkey; cbn [length Nat.eqb negb nth];
    hrun; hreceived Hc; hstatus; split; reflexivity.
Qed.

(** X18. An import whose list request is answered with a status other than
    200 sets no state and reports the status and the body. *)
Theorem ImportState_requires_200 :
  (forall (ID organizationName workspaceName : string) (resp : Response.t)
          (body : string),
      strings_Split ID ":" = [organizationName; workspaceName] ->
      received r (run (WorkspaceResource.ImportState url_error r ID) None) resp ->
      Response.StatusCode resp <> 200%Z ->
      Response.Body resp = Ok body ->
      State (run (WorkspaceResource.ImportState url_error r ID) None) = None
      /\ Diagnostics (run (WorkspaceResource.ImportState url_error r ID) None)
         = [{| Summary := "Failed to fetch workspaces";
               Detail := "Status code: " ++ Itoa (Response.StatusCode resp)
                         ++ ", Body: " ++ body |}])
  /\ (forall (ID organizationName vcsName : string) (resp : Response.t)
             (body : string),
      strings_Split ID ":" = [organizationName; vcsName] ->
      received r (run (VCSResource.ImportState url_error r ID) None) resp ->
      Response.StatusCode resp <> 200%Z ->
      Response.Body resp = Ok body ->
      State (run (VCSResource.ImportState url_error r ID) None) = None
      /\ Diagnostics (run (VCSResource.ImportState url_error r ID) None)
         = [{| Summary := "Failed to fetch VCS connections";
               Detail := "Status code: " ++ Itoa (Response.StatusCode resp)
                         ++ ", Body: " ++ body |}]).
Proof.
  split; intros ID org name resp body Hkey [req [Hs Hc]] H200 Hb;
    revert Hs;
    unfold WorkspaceResource.ImportState, VCSResource.ImportState;
    cbv zeta; rewrite Hkey; cbn [length Nat.eqb negb nth];
    hrun; hreceived Hc; hstatus;
    (split; [reflexivity|]); repeat f_equal; congruence.
Qed.

Lemma VCS_ImportState_id
  (org name : string) (vcsList : list VCSAPIResponse.t)
  (resp : Response.t) (body : string) :
  strings_Count org ":" = 0 -> strings_Count name ":" = 0 ->
  received r (run (VCSResource.ImportState url_error r (org ++ ":" ++ name))
                  None) resp ->
  Response.StatusCode resp = 200%Z ->
  Response.Body resp = Ok body ->
  json_Unmarshal body = Ok vcsList ->
  option_map VCSResourceModel.ID
    (State (run (VCSResource.ImportState url_error r (org ++ ":" ++ name)) None))
  = option_map (fun v => types.StringValue (VCSAPIResponse.ID v))
      (VCSResource.find vcsList name).
Proof.
  intros Horg Hname [req [Hs Hc]] H200 Hb Hj. revert Hs.
  unfold VCSResource.ImportState. cbv zeta.
  change (org ++ ":" ++ name) with (org ++ String ":" name).
  rewrite (strings_Split_two _ _ _ Horg Hname).
  cbn [length Nat.eqb negb nth].
  hrun; hreceived Hc; hstatus;
    match goal with
    | H : VCSResource.find ?l _ = _ |- _ =>
        replace vcsList with l by congruence; rewrite H; reflexivity
    end.
Qed.

(** X19. For an organization and a name without colons and a list of VCS
    connections, decoded from the 200 answer of the list endpoint, whose
    first record of the name is [v], the VCS import with the key "org:name"
    puts the id of [v] in the state, where the VCS data source read by that
    organization and name returns at [req.Config.Get] with "Value
    Conversion Error", no state and no request. *)
Theorem VCS_Import_resolves_where_data_source_stops
  (org name : string) (vcsList : list VCSAPIResponse.t)
  (v : VCSAPIResponse.t) (resp : Response.t) (body : string) :
  strings_Count org ":" = 0 -> strings_Count name ":" = 0 ->
  received r (run (VCSResource.ImportState url_error r (org ++ ":" ++ name))
                  None) resp ->
  Response.StatusCode resp = 200%Z ->
  Response.Body resp = Ok body ->
  json_Unmarshal body = Ok vcsList ->
  VCSResource.find vcsList name = Some v ->
  option_map VCSResourceModel.ID
    (State (run (VCSResource.ImportState url_error r (org ++ ":" ++ name)) None))
  = Some (types.StringValue (VCSAPIResponse.ID v))
  /\ run (VCSDataSource.Read url_error conversion_error r
            (VCSDataSourceFilterModel.mk
               types.StringNull (types.StringValue org) (types.StringValue name)))
         None
     = {| State := None;
          Diagnostics :=
            [{| Summary := "Value Conversion Error";
                Detail := conversion_error VCSDataSource.Schema
                            VCSDataSourceFilterModel.tfsdk |}];
          Sent := [] |}.
Proof.
  intros Horg Hname Hr H200 Hb Hj Hfind. split.
  - rewrite (VCS_ImportState_id org name vcsList resp body
               Horg Hname Hr H200 Hb Hj).
    rewrite Hfind. reflexivity.
  - reflexivity.
Qed.

End Imports.

Section Schemes.
Variable url_error : string -> option string.
Context {decodeOrganization : Unmarshal OrganizationAPIResponse.t}.
Context {decodeWorkspace : Unmarshal WorkspaceAPIResponse.t}.
Context {decodeVariable : Unmarshal VariableAPIResponse.t}.
Context {decodeVCS : Unmarshal VCSAPIResponse.t}.
Variable d : InfradotsProvider.

(** ** The scheme of the Organization and Variable requests *)

(** X25. Every request of the Organization and of the Variable resource
    goes to [http://<host>/api/organizations/...]. *)
Theorem Organization_and_Variable_requests_use_http
  (a : Adapter.t) (op : Operation.t a) (req : Request.t) :
  a = Adapter.organization \/ a = Adapter.variable ->
  In req (Sent (Operation.frame url_error d op)) ->
  exists rest,
    Request.URL req = "http://" ++ host d ++ "/api/organizations/" ++ rest.
Proof.
  intros Ha.
  destruct a; (destruct Ha as [Ha|Ha]; try discriminate Ha); clear Ha;
    destruct op; unfold_operation; hrun;
    cbn [In]; intros Hin; try contradiction;
    (destruct Hin as [<-|Hin]; [|contradiction]);
    cbn [Request.URL]; eexists; reflexivity.
Qed.

End Schemes.

Section WorkspaceVCS.
Variable url_error : string -> option string.
Context {decodeOrganization : Unmarshal OrganizationAPIResponse.t}.
Context {decodeWorkspace : Unmarshal WorkspaceAPIResponse.t}.
Context {decodeVariable : Unmarshal VariableAPIResponse.t}.
Context {decodeVCS : Unmarshal VCSAPIResponse.t}.
Variable d : InfradotsProvider.

(** ** The link of a workspace to its VCS connection *)

(** X27. After a successful [Create], [Read] or [Update] of a workspace the
    [vcs] attribute follows the response alone: it is null exactly when the
    response has no [vcs], and otherwise an object of the seven attributes
    id, name, vcs_type, url, description, created_at and updated_at, so
    without the connection's client id. The [vcs_id] attribute follows the
    plan (for [Read], the prior state) alone. *)
Theorem Workspace_vcs_follows_the_response
  (op : Operation.t Adapter.workspace) (resp : Response.t) (body : string)
  (rec : WorkspaceAPIResponse.t) :
  received d (Operation.frame url_error d op) resp ->
  Operation.decodes_after op = Some (Response.StatusCode resp) ->
  Response.Body resp = Ok body ->
  json_Unmarshal body = Ok rec ->
  exists data : WorkspaceResourceModel.t,
    State (Operation.frame url_error d op) = Some data
    /\ (WorkspaceResourceModel.VCS data = types.ObjectNull
        <-> WorkspaceAPIResponse.VCS rec = None)
    /\ (forall vcs, WorkspaceAPIResponse.VCS rec = Some vcs ->
          exists attrs,
            WorkspaceResourceModel.VCS data = types.ObjectValueMust attrs
            /\ map fst attrs
               = ["id"; "name"; "vcs_type"; "url"; "description";
                  "created_at"; "updated_at"]
            /\ In ("id", types.StringValue (VCSAPIResponse.ID vcs)) attrs)
    /\ WorkspaceResourceModel.VcsId data
       = match op with
         | Operation.Create _ plan => WorkspaceResourceModel.VcsId plan
         | Operation.Read _ state => WorkspaceResourceModel.VcsId state
         | Operation.Update _ plan _ => WorkspaceResourceModel.VcsId plan
         | Operation.Delete _ state => WorkspaceResourceModel.VcsId state
         end.
Proof.
  intros Hr Hst Hb Hj.
  assert (Hdata :
            exists base : WorkspaceResourceModel.t,
              State (Operation.frame url_error d op)
              = Some (WorkspaceResource.fromResponse base rec)
              /\ WorkspaceResourceModel.VcsId base
                 = match op with
                   | Operation.Create _ plan => WorkspaceResourceModel.VcsId plan
                   | Operation.Read _ state => WorkspaceResourceModel.VcsId state
                   | Operation.Update _ plan _ => WorkspaceResourceModel.VcsId plan
                   | Operation.Delete _ state => WorkspaceResourceModel.VcsId state
                   end).
  { destruct op as [plan|state|plan state|state];
      unfold Operation.frame in *;
      cbn [Operation.handler Operation.prior Operation.decodes_after] in *;
      try discriminate Hst; injection Hst as Hst; symmetry in Hst.
    - exists plan. split; [|reflexivity].
      exact (proj1 (Create_sets url_error d Adapter.workspace plan resp body rec
                      Hr Hst Hb Hj)).
    - exists state. split; [|reflexivity].
      exact (proj1 (Read_sets url_error d Adapter.workspace state resp body rec
                      Hr Hst Hb Hj)).
    - exists plan. split; [|reflexivity].
      exact (proj1 (Update_sets url_error d Adapter.workspace plan state resp
                      body rec Hr Hst Hb Hj)). }
  destruct Hdata as [base [Hstate Hvcs_id]].
  eexists. split; [exact Hstate|].
  unfold WorkspaceResource.fromResponse.
  cbn [WorkspaceResourceModel.VCS WorkspaceResourceModel.VcsId].
  unfold vcsToObject.
  split; [|split; [|exact Hvcs_id]].
  - destruct (WorkspaceAPIResponse.VCS rec); split; intros H;
      reflexivity || discriminate H.
  - intros vcs Hsome. rewrite Hsome. eexists. split; [reflexivity|].
    split; [reflexivity|]. left. reflexivity.
Qed.

End WorkspaceVCS.

(** * The further properties on the tests' records *)

(** [Operation_request_shape] at the [Create] of the VCS connection. *)
Lemma Operation_request_shape_witness :
  exists req,
    Sent (mockFrame (mockServer "{}")
            (Operation.Create Adapter.vcs vcsPlan))
    = [req]
    /\ Request.Method_ req = MethodPost
    /\ In ("Authorization", "Bearer test-token") (Request.Header req).
Proof.
  eexists. split; [reflexivity|].
  destruct (@Operation_request_shape no_url_error
              (mockDecode (mockOrganization "remote")) (mockDecode mockWorkspace)
        (mockDecode mockVariable) (mockDecode mockVCS)
              (mockServer "{}") Adapter.vcs
              (Operation.Create Adapter.vcs vcsPlan) _ (or_introl eq_refl))
    as [Hm [Ha _]].
  split; [exact Hm | exact Ha].
Defined.

(** [Operation_without_request] at an Organization [Read] whose URL does
    not parse. *)
Lemma Operation_without_request_witness :
  Sent (@Operation.frame bad_url_error
          (mockDecode (mockOrganization "remote")) (mockDecode mockWorkspace)
        (mockDecode mockVariable) (mockDecode mockVCS)
          (mockServer "{}") Adapter.organization
          (Operation.Read Adapter.organization (organizationState "remote" true)))
  = []
  /\ State (@Operation.frame bad_url_error
              (mockDecode (mockOrganization "remote")) (mockDecode mockWorkspace)
        (mockDecode mockVariable) (mockDecode mockVCS)
              (mockServer "{}") Adapter.organization
              (Operation.Read Adapter.organization
                 (organizationState "remote" true)))
     = Some (organizationState "remote" true).
Proof.
  split; [reflexivity|].
  apply (proj1 (@Operation_without_request bad_url_error
                  (mockDecode (mockOrganization "remote")) (mockDecode mockWorkspace)
        (mockDecode mockVariable) (mockDecode mockVCS)
                  (mockServer "{}") Adapter.organization
                  (Operation.Read Adapter.organization
                     (organizationState "remote" true))
                  eq_refl)).
Defined.

(** [Operation_transport_error] at a Variable [Delete] over a client that
    cannot connect. *)
Lemma Operation_transport_error_witness :
  failed (mockDown "connection refused")
    (mockFrame (mockDown "connection refused")
       (Operation.Delete Adapter.variable variableState))
    "connection refused"
  /\ State (mockFrame (mockDown "connection refused")
              (Operation.Delete Adapter.variable variableState))
     = Some variableState.
Proof.
  assert (Hf : failed (mockDown "connection refused")
                 (mockFrame (mockDown "connection refused")
                    (Operation.Delete Adapter.variable variableState))
                 "connection refused").
  { eexists. split; reflexivity. }
  split; [exact Hf|].
  apply (proj1 (@Operation_transport_error no_url_error
                  (mockDecode (mockOrganization "remote")) (mockDecode mockWorkspace)
        (mockDecode mockVariable) (mockDecode mockVCS)
                  (mockDown "connection refused") Adapter.variable
                  (Operation.Delete Adapter.variable variableState)
                  "connection refused" Hf)).
Defined.

(** [Create_requires_201] at a Workspace [Create] answered with 200. *)
Lemma Create_requires_201_witness :
  received (mockProvider 200 "ok")
    (run (mockCreate "remote" (mockProvider 200 "ok") Adapter.workspace
            (workspaceState "Test workspace"))
         None)
    (Response.mk 200 (Ok "ok"))
  /\ State
       (run (mockCreate "remote" (mockProvider 200 "ok") Adapter.workspace
               (workspaceState "Test workspace"))
            None)
     = None
  /\ Diagnostics
       (run (mockCreate "remote" (mockProvider 200 "ok") Adapter.workspace
               (workspaceState "Test workspace"))
            None)
     = [{| Summary := "Non-201 response"; Detail := "Status: 200, Body: ok" |}].
Proof.
  assert (Hr : received (mockProvider 200 "ok")
                 (run (mockCreate "remote" (mockProvider 200 "ok")
                         Adapter.workspace (workspaceState "Test workspace"))
                      None)
                 (Response.mk 200 (Ok "ok"))).
  { eexists. split; reflexivity. }
  split; [exact Hr|].
  apply (@Create_requires_201 no_url_error
           (mockDecode (mockOrganization "remote")) (mockDecode mockWorkspace)
        (mockDecode mockVariable) (mockDecode mockVCS)
           (mockProvider 200 "ok") Adapter.workspace
           (workspaceState "Test workspace") (Response.mk 200 (Ok "ok")) "ok"
           Hr eq_refl).
  cbn. intros H. discriminate H.
Defined.

(** [Read_other_status_is_fatal] at a VCS [Read] answered with 500. *)
Lemma Read_other_status_is_fatal_witness :
  received (mockProvider 500 "boom")
    (run (mockRead "remote" (mockProvider 500 "boom") Adapter.vcs vcsState)
         (Some vcsState))
    (Response.mk 500 (Ok "boom"))
  /\ State
       (run (mockRead "remote" (mockProvider 500 "boom") Adapter.vcs vcsState)
            (Some vcsState))
     = Some vcsState
  /\ Diagnostics
       (run (mockRead "remote" (mockProvider 500 "boom") Adapter.vcs vcsState)
            (Some vcsState))
     = [{| Summary := "Read failed"; Detail := "Status code: 500" |}].
Proof.
  assert (Hr : received (mockProvider 500 "boom")
                 (run (mockRead "remote" (mockProvider 500 "boom") Adapter.vcs
                         vcsState)
                      (Some vcsState))
                 (Response.mk 500 (Ok "boom"))).
  { eexists. split; reflexivity. }
  split; [exact Hr|].
  apply (@Read_other_status_is_fatal no_url_error
           (mockDecode (mockOrganization "remote")) (mockDecode mockWorkspace)
        (mockDecode mockVariable) (mockDecode mockVCS)
           (mockProvider 500 "boom") Adapter.vcs vcsState
           (Response.mk 500 (Ok "boom")) Hr);
    cbn; intros H; discriminate H.
Defined.

(** [Update_requires_200] at a VCS [Update] answered with 500. *)
Lemma Update_requires_200_witness :
  received (mockProvider 500 "boom")
    (run (mockUpdate (mockProvider 500 "boom") Adapter.vcs vcsPlan vcsState)
         (Some vcsState))
    (Response.mk 500 (Ok "boom"))
  /\ State
       (run (mockUpdate (mockProvider 500 "boom") Adapter.vcs vcsPlan vcsState)
            (Some vcsState))
     = Some vcsState
  /\ Diagnostics
       (run (mockUpdate (mockProvider 500 "boom") Adapter.vcs vcsPlan vcsState)
            (Some vcsState))
     = [{| Summary := "Update failed";
           Detail := "Status code: 500, Body: boom" |}].
Proof.
  assert (Hr : received (mockProvider 500 "boom")
                 (run (mockUpdate (mockProvider 500 "boom") Adapter.vcs
                         vcsPlan vcsState)
                      (Some vcsState))
                 (Response.mk 500 (Ok "boom"))).
  { eexists. split; reflexivity. }
  split; [exact Hr|].
  apply (@Update_requires_200 no_url_error
           (mockDecode (mockOrganization "remote")) (mockDecode mockWorkspace)
        (mockDecode mockVariable) (mockDecode mockVCS)
           (mockProvider 500 "boom") Adapter.vcs vcsPlan vcsState
           (Response.mk 500 (Ok "boom")) "boom" Hr eq_refl).
  cbn. intros H. discriminate H.
Defined.

(** [Operation_decode_error] at an Organization [Read] whose body does not
    decode. *)
Lemma Operation_decode_error_witness :
  received (mockServer "not json")
    (@Operation.frame no_url_error (mockReject "unexpected token")
       (mockDecode mockWorkspace) (mockDecode mockVariable) (mockDecode mockVCS)
       (mockServer "not json") Adapter.organization
       (Operation.Read Adapter.organization (organizationState "remote" true)))
    (Response.mk 200 (Ok "not json"))
  /\ State
       (@Operation.frame no_url_error (mockReject "unexpected token")
          (mockDecode mockWorkspace) (mockDecode mockVariable)
          (mockDecode mockVCS)
          (mockServer "not json") Adapter.organization
          (Operation.Read Adapter.organization
             (organizationState "remote" true)))
     = Some (organizationState "remote" true)
  /\ Diagnostics
       (@Operation.frame no_url_error (mockReject "unexpected token")
          (mockDecode mockWorkspace) (mockDecode mockVariable)
          (mockDecode mockVCS)
          (mockServer "not json") Adapter.organization
          (Operation.Read Adapter.organization
             (organizationState "remote" true)))
     = [{| Summary := "Error parsing response";
           Detail := "unexpected token" |}].
Proof.
  assert (Hr : received (mockServer "not json")
                 (@Operation.frame no_url_error (mockReject "unexpected token")
                    (mockDecode mockWorkspace) (mockDecode mockVariable)
                    (mockDecode mockVCS)
                    (mockServer "not json") Adapter.organization
                    (Operation.Read Adapter.organization
                       (organizationState "remote" true)))
                 (Response.mk 200 (Ok "not json"))).
  { eexists. split; reflexivity. }
  split; [exact Hr|].
  apply (@Operation_decode_error no_url_error (mockReject "unexpected token")
           (mockDecode mockWorkspace) (mockDecode mockVariable)
           (mockDecode mockVCS)
           (mockServer "not json") Adapter.organization
           (Operation.Read Adapter.organization (organizationState "remote" true))
           (Response.mk 200 (Ok "not json")) "not json" "unexpected token"
           Hr eq_refl eq_refl eq_refl).
Defined.

(** [Update_and_Delete_address_what_Read_reads] at a plan that renames the
    workspace: the request goes to the name in the state. *)
Lemma Update_and_Delete_address_what_Read_reads_witness :
  url_of
    (run (mockUpdate (mockServer "{}") Adapter.workspace workspaceRenamed
            (workspaceState "Test workspace"))
         (Some (workspaceState "Test workspace")))
  = url_of
      (run (mockRead "remote" (mockServer "{}") Adapter.workspace
              (workspaceState "Test workspace"))
           (Some (workspaceState "Test workspace")))
  /\ url_of
       (run (mockRead "remote" (mockServer "{}") Adapter.workspace
               (workspaceState "Test workspace"))
            (Some (workspaceState "Test workspace")))
     = Some "https://api.infradots.com/api/organizations/test-org/workspaces/test-workspace/".
Proof.
  split; [|reflexivity].
  apply (proj2 (@Update_and_Delete_address_what_Read_reads no_url_error
                  (mockDecode (mockOrganization "remote")) (mockDecode mockWorkspace)
        (mockDecode mockVariable) (mockDecode mockVCS)
                  (mockServer "{}") Adapter.workspace workspaceRenamed
                  (workspaceState "Test workspace"))).
  - reflexivity.
  - intros H. exfalso. apply H. reflexivity.
Defined.

(** [Create_payload_members] at an organization planned without agents:
    the payload has no [agents_enabled]. *)
Lemma Create_payload_members_witness :
  payload
    (run (mockCreate "remote" (mockServer "{}") Adapter.organization
            organizationPlanDisabled)
         None)
  = Some [("name", JString "test-org"); ("execution_mode", JString "remote")]
  /\ has_member "agents_enabled"
       [("name", JString "test-org"); ("execution_mode", JString "remote")]
     = false.
Proof.
  assert (Hp : payload
                 (run (mockCreate "remote" (mockServer "{}")
                         Adapter.organization organizationPlanDisabled)
                      None)
               = Some [("name", JString "test-org");
                       ("execution_mode", JString "remote")]) by reflexivity.
  split; [exact Hp|].
  destruct (@Create_payload_members no_url_error
              (mockDecode (mockOrganization "remote")) (mockDecode mockWorkspace)
        (mockDecode mockVariable) (mockDecode mockVCS)
              (mockServer "{}") Adapter.organization organizationPlanDisabled
              [("name", JString "test-org"); ("execution_mode", JString "remote")]
              Hp)
    as [Hfields _].
  apply (Hfields (IfTrue "agents_enabled" (types.BoolValue false))).
  cbn. do 2 right. left. reflexivity.
Defined.

(** [Update_sets_response_over_plan] at the VCS plan of the examples. *)
Lemma Update_sets_response_over_plan_witness :
  option_map VCSResourceModel.ClientSecret
    (State
       (run (mockUpdate (mockServer "{}") Adapter.vcs vcsPlan vcsState)
            (Some vcsState)))
  = Some (types.StringValue "test-client-secret")
  /\ Diagnostics
       (run (mockUpdate (mockServer "{}") Adapter.vcs vcsPlan vcsState)
            (Some vcsState))
     = [].
Proof.
  assert (Hr : received (mockServer "{}")
                 (run (mockUpdate (mockServer "{}") Adapter.vcs vcsPlan vcsState)
                      (Some vcsState))
                 (Response.mk 200 (Ok "{}"))).
  { eexists. split; reflexivity. }
  destruct (@Update_sets_response_over_plan no_url_error
              (mockDecode (mockOrganization "remote")) (mockDecode mockWorkspace)
        (mockDecode mockVariable) (mockDecode mockVCS)
              (mockServer "{}") Adapter.vcs vcsPlan vcsState
              (Response.mk 200 (Ok "{}")) "{}" mockVCS
              Hr eq_refl eq_refl eq_refl)
    as [Hd [data [Hst [_ [_ Hsecret]]]]].
  split; [|exact Hd].
  transitivity (option_map VCSResourceModel.ClientSecret (Some data)).
  - f_equal. exact Hst.
  - cbn [option_map]. f_equal. exact Hsecret.
Defined.

(** [Read_after_Read_or_Update_is_stable] at an Organization [Update] and
    the [Read] of the state it sets. *)
Lemma Read_after_Read_or_Update_is_stable_witness :
  State
    (run (mockUpdate (mockServer "{}") Adapter.organization
            (organizationState "local" false) (organizationState "remote" true))
         (Some (organizationState "remote" true)))
  = Some (organizationState "remote" true)
  /\ State
       (run (mockRead "remote" (mockServer "{}") Adapter.organization
               (organizationState "remote" true))
            (Some (organizationState "remote" true)))
     = Some (organizationState "remote" true).
Proof.
  assert (Hr : received (mockServer "{}")
                 (@Operation.frame no_url_error
                    (mockDecode (mockOrganization "remote")) (mockDecode mockWorkspace)
        (mockDecode mockVariable) (mockDecode mockVCS)
                    (mockServer "{}") Adapter.organization
                    (Operation.Update Adapter.organization
                       (organizationState "local" false)
                       (organizationState "remote" true)))
                 (Response.mk 200 (Ok "{}"))).
  { eexists. split; reflexivity. }
  assert (Hr' : received (mockServer "{}")
                  (run (mockRead "remote" (mockServer "{}")
                          Adapter.organization (organizationState "remote" true))
                       (Some (organizationState "remote" true)))
                  (Response.mk 200 (Ok "{}"))).
  { eexists. split; reflexivity. }
  split; [reflexivity|].
  apply (proj1 (@Read_after_Read_or_Update_is_stable no_url_error
                  (mockDecode (mockOrganization "remote")) (mockDecode mockWorkspace)
        (mockDecode mockVariable) (mockDecode mockVCS)
                  (mockServer "{}") Adapter.organization
                  (Operation.Update Adapter.organization
                     (organizationState "local" false)
                     (organizationState "remote" true))
                  (organizationState "remote" true)
                  (Response.mk 200 (Ok "{}")) (Response.mk 200 (Ok "{}"))
                  "{}" "{}" (mockOrganization "remote")
                  eq_refl Hr eq_refl eq_refl eq_refl eq_refl
                  Hr' eq_refl eq_refl eq_refl)).
Defined.

(** [Read_after_ImportState_is_stable] at the VCS connection of the tests. *)
Lemma Read_after_ImportState_is_stable_witness :
  State
    (run (@VCSResource.ImportState no_url_error (mockDecode [mockVCS])
            (mockServer "[]") "test-org:test-vcs")
         None)
  = Some (VCSResource.fromResponse
            (VCSResourceModel.mk
               types.StringNull (types.StringValue "test-org")
               types.StringNull types.StringNull types.StringNull
               types.StringNull types.StringNull types.StringNull
               types.StringNull types.StringNull)
            mockVCS)
  /\ State
       (run (@VCSResource.Read no_url_error (mockDecode mockVCS)
               (mockServer "[]")
               (VCSResource.fromResponse
                  (VCSResourceModel.mk
                     types.StringNull (types.StringValue "test-org")
                     types.StringNull types.StringNull types.StringNull
                     types.StringNull types.StringNull types.StringNull
                     types.StringNull types.StringNull)
                  mockVCS))
            (Some (VCSResource.fromResponse
                     (VCSResourceModel.mk
                        types.StringNull (types.StringValue "test-org")
                        types.StringNull types.StringNull types.StringNull
                        types.StringNull types.StringNull types.StringNull
                        types.StringNull types.StringNull)
                     mockVCS)))
     = Some (VCSResource.fromResponse
               (VCSResourceModel.mk
                  types.StringNull (types.StringValue "test-org")
                  types.StringNull types.StringNull types.StringNull
                  types.StringNull types.StringNull types.StringNull
                  types.StringNull types.StringNull)
               mockVCS).
Proof.
  assert (Hr : received (mockServer "[]")
                 (run (@VCSResource.ImportState no_url_error
                         (mockDecode [mockVCS]) (mockServer "[]")
                         "test-org:test-vcs")
                      None)
                 (Response.mk 200 (Ok "[]"))).
  { eexists. split; reflexivity. }
  assert (Hr' : received (mockServer "[]")
                  (run (@VCSResource.Read no_url_error (mockDecode mockVCS)
                          (mockServer "[]")
                          (VCSResource.fromResponse
                             (VCSResourceModel.mk
                                types.StringNull (types.StringValue "test-org")
                                types.StringNull types.StringNull
                                types.StringNull types.StringNull
                                types.StringNull types.StringNull
                                types.StringNull types.StringNull)
                             mockVCS))
                       (Some (VCSResource.fromResponse
                                (VCSResourceModel.mk
                                   types.StringNull
                                   (types.StringValue "test-org")
                                   types.StringNull types.StringNull
                                   types.StringNull types.StringNull
                                   types.StringNull types.StringNull
                                   types.StringNull types.StringNull)
                                mockVCS)))
                  (Response.mk 200 (Ok "[]"))).
  { eexists. split; reflexivity. }
  split; [reflexivity|].
  apply (proj1 (proj2 (@Read_after_ImportState_is_stable no_url_error
                         (mockDecode (mockOrganization "remote"))
                         (mockDecode mockWorkspace) (mockDecode [mockWorkspace])
                         (mockDecode mockVariable)
                         (mockDecode mockVCS) (mockDecode [mockVCS])
                         (mockServer "[]"))
                      "test-org:test-vcs" "test-org" "test-vcs"
                      (Response.mk 200 (Ok "[]")) (Response.mk 200 (Ok "[]"))
                      "[]" "[]" [mockVCS] mockVCS _
                      eq_refl Hr eq_refl eq_refl eq_refl eq_refl eq_refl
                      Hr' eq_refl eq_refl eq_refl)).
Defined.

(** [ImportState_not_found] at a workspace that is not in the list. *)
Lemma ImportState_not_found_witness :
  State
    (run (@WorkspaceResource.ImportState no_url_error
            (mockDecode [mockWorkspace]) (mockServer "[]") "test-org:missing")
         None)
  = None
  /\ Diagnostics
       (run (@WorkspaceResource.ImportState no_url_error
               (mockDecode [mockWorkspace]) (mockServer "[]")
               "test-org:missing")
            None)
     = [{| Summary := "Workspace not found";
           Detail := "No workspace with name 'missing' found in organization 'test-org'" |}].
Proof.
  assert (Hr : received (mockServer "[]")
                 (run (@WorkspaceResource.ImportState no_url_error
                         (mockDecode [mockWorkspace]) (mockServer "[]")
                         "test-org:missing")
                      None)
                 (Response.mk 200 (Ok "[]"))).
  { eexists. split; reflexivity. }
  apply (proj1 (@ImportState_not_found no_url_error
                  (mockDecode [mockWorkspace]) (mockDecode [mockVCS])
                  (mockServer "[]"))
               "test-org:missing" "test-org" "missing"
               (Response.mk 200 (Ok "[]")) "[]" [mockWorkspace]
               eq_refl Hr eq_refl eq_refl eq_refl eq_refl).
Defined.

(** [ImportState_requires_200] at a VCS import answered with 500. *)
Lemma ImportState_requires_200_witness :
  State
    (run (@VCSResource.ImportState no_url_error (mockDecode [mockVCS])
            (mockProvider 500 "boom") "test-org:test-vcs")
         None)
  = None
  /\ Diagnostics
       (run (@VCSResource.ImportState no_url_error (mockDecode [mockVCS])
               (mockProvider 500 "boom") "test-org:test-vcs")
            None)
     = [{| Summary := "Failed to fetch VCS connections";
           Detail := "Status code: 500, Body: boom" |}].
Proof.
  assert (Hr : received (mockProvider 500 "boom")
                 (run (@VCSResource.ImportState no_url_error
                         (mockDecode [mockVCS]) (mockProvider 500 "boom")
                         "test-org:test-vcs")
                      None)
                 (Response.mk 500 (Ok "boom"))).
  { eexists. split; reflexivity. }
  apply (proj2 (@ImportState_requires_200 no_url_error
                  (mockDecode [mockWorkspace]) (mockDecode [mockVCS])
                  (mockProvider 500 "boom"))
               "test-org:test-vcs" "test-org" "test-vcs"
               (Response.mk 500 (Ok "boom")) "boom" eq_refl Hr).
  - cbn. intros H. discriminate H.
  - reflexivity.
Defined.

(** [Organization_and_Variable_requests_use_http] at a Variable [Read]. *)
Lemma Organization_and_Variable_requests_use_http_witness :
  exists req,
    Sent (mockFrame (mockServer "{}")
            (Operation.Read Adapter.variable variableState))
    = [req]
    /\ exists rest,
        Request.URL req
        = "http://" ++ "api.infradots.com" ++ "/api/organizations/" ++ rest.
Proof.
  eexists. split; [reflexivity|].
  apply (@Organization_and_Variable_requests_use_http no_url_error
           (mockDecode (mockOrganization "remote")) (mockDecode mockWorkspace)
           (mockDecode mockVariable) (mockDecode mockVCS)
           (mockServer "{}") Adapter.variable
           (Operation.Read Adapter.variable variableState) _
           (or_intror eq_refl) (or_introl eq_refl)).
Defined.

(** [Workspace_vcs_follows_the_response] at a [Create] whose plan has no
    [vcs_id] and whose response has a [vcs]. *)
Lemma Workspace_vcs_follows_the_response_witness :
  exists data : WorkspaceResourceModel.t,
    State
      (@Operation.frame no_url_error (mockDecode (mockOrganization "remote"))
         (mockDecode mockWorkspaceWithVCS) (mockDecode mockVariable)
         (mockDecode mockVCS) (mockServer "{}") Adapter.workspace
         (Operation.Create Adapter.workspace (workspaceState "Test workspace")))
    = Some data
    /\ WorkspaceResourceModel.VCS data <> types.ObjectNull
    /\ WorkspaceResourceModel.VcsId data = types.StringNull.
Proof.
  assert (Hr : received (mockServer "{}")
                 (@Operation.frame no_url_error
                    (mockDecode (mockOrganization "remote"))
                    (mockDecode mockWorkspaceWithVCS) (mockDecode mockVariable)
                    (mockDecode mockVCS) (mockServer "{}") Adapter.workspace
                    (Operation.Create Adapter.workspace
                       (workspaceState "Test workspace")))
                 (Response.mk 201 (Ok "{}"))).
  { eexists. split; reflexivity. }
  destruct (@Workspace_vcs_follows_the_response no_url_error
              (mockDecode (mockOrganization "remote"))
              (mockDecode mockWorkspaceWithVCS) (mockDecode mockVariable)
              (mockDecode mockVCS) (mockServer "{}")
              (Operation.Create Adapter.workspace
                 (workspaceState "Test workspace"))
              (Response.mk 201 (Ok "{}")) "{}" mockWorkspaceWithVCS
              Hr eq_refl eq_refl eq_refl)
    as [data [Hst [Hnull [_ Hvcs_id]]]].
  exists data. split; [exact Hst|]. split; [|exact Hvcs_id].
  intros H. apply Hnull in H. discriminate H.
Defined.

(** [VCS_Import_resolves_where_data_source_stops] at the VCS connection of
    the tests. *)
Lemma VCS_Import_resolves_where_data_source_stops_witness :
  option_map VCSResourceModel.ID
    (State
       (run (@VCSResource.ImportState no_url_error (mockDecode [mockVCS])
               (mockServer "[]") "test-org:test-vcs")
            None))
  = Some (types.StringValue "5f560f5e-0bf3-6543-defg-g1156789012c")
  /\ option_map VCSDataSourceModel.ID
       (State
          (run (@VCSDataSource.Read no_url_error mockConversionError
                  (mockDecode mockVCS) (mockDecode [mockVCS])
                  (mockServer "[]")
                  (VCSDataSourceFilterModel.mk
                     types.StringNull (types.StringValue "test-org")
                     (types.StringValue "test-vcs")))
               None))
     = None.
Proof.
  assert (Hr : received (mockServer "[]")
                 (run (@VCSResource.ImportState no_url_error
                         (mockDecode [mockVCS]) (mockServer "[]")
                         ("test-org" ++ ":" ++ "test-vcs"))
                      None)
                 (Response.mk 200 (Ok "[]"))).
  { eexists. split; reflexivity. }
  destruct (@VCS_Import_resolves_where_data_source_stops no_url_error
              mockConversionError
              (mockDecode mockVCS) (mockDecode [mockVCS])
              (mockServer "[]") "test-org" "test-vcs" [mockVCS]
              mockVCS (Response.mk 200 (Ok "[]")) "[]"
              eq_refl eq_refl Hr eq_refl eq_refl eq_refl eq_refl)
    as [Himport Hdata].
  split.
  - exact Himport.
  - rewrite Hdata. reflexivity.
Defined.
